(** * Based_on_PostgreSQL_compression: the streaming conversion pipeline

    A shallow embedding of the Python sources
      - [data_processing/data_reader.py]   (delimiter and schema inference),
      - [conversion/parquet_converter.py]  (row to columnar, columnar to row),
      - [compression/zstd_compressor.py]   (streaming codec envelope),
      - [main.py]                          (the orchestrator),
    and the properties of the natural-language specification stated over it.

    Python [str] and [bytes] values are [string]s (files are taken to hold
    ASCII text), a [dict] is a [gmap], a [Counter] (whose insertion order
    decides ties) is an association list, and an exception is a value of
    [exn] carried by [result].  The messages of exceptions are given in
    English.  What pandas, pyarrow and zstandard compute is not part of the
    program: their behaviour enters as the variables of the sections below,
    except for the CSV rendering of [DataFrame.to_csv], which is written
    out. *)

From Stdlib Require Import List Arith Lia Bool Ascii String ZArith DecimalString.
From Stdlib Require DecimalNat DecimalFacts.
From stdpp Require Import base option gmap strings.
Import ListNotations.
Open Scope string_scope.

(** ** Exceptions and results *)

Inductive exn : Type :=
| ValueError (msg : string)
| UnboundLocalError (var : string)
| FileNotFoundError (path : string)
| StopIteration
| ZeroDivisionError
| ZstdError
| ArrowInvalid
| OtherError (msg : string).

Inductive result (A : Type) : Type :=
| Ok (a : A)
| Raise (e : exn).
Arguments Ok {A} a.
Arguments Raise {A} e.

Definition is_ok {A} (r : result A) : bool :=
  match r with Ok _ => true | Raise _ => false end.

(** ** Python string primitives *)

Module PyStr.

Definition nl : ascii := "010"%char.
Definition cr : ascii := "013"%char.
Definition tab : ascii := "009"%char.
Definition dquote : ascii := "034"%char.

(** [str.isspace] on one code point of the ASCII range. *)
Definition is_space (c : ascii) : bool :=
  let n := nat_of_ascii c in
  (Nat.leb 9 n && Nat.leb n 13) || (Nat.leb 28 n && Nat.leb n 32).

Definition is_empty (s : string) : bool :=
  match s with EmptyString => true | String _ _ => false end.

(** [s.lstrip(chars)], [s.rstrip(chars)] and [s.strip(chars)], the set of
    stripped characters given as a predicate. *)
Fixpoint lstrip_by (p : ascii -> bool) (s : string) : string :=
  match s with
  | EmptyString => EmptyString
  | String c s' => if p c then lstrip_by p s' else s
  end.

Fixpoint rstrip_by (p : ascii -> bool) (s : string) : string :=
  match s with
  | EmptyString => EmptyString
  | String c s' =>
      let r := rstrip_by p s' in
      if p c && is_empty r then EmptyString else String c r
  end.

Definition strip_by (p : ascii -> bool) (s : string) : string :=
  rstrip_by p (lstrip_by p s).

(** [s.strip()] *)
Definition strip (s : string) : string := strip_by is_space s.

(** [s.strip('\n')] *)
Definition strip_nl (s : string) : string := strip_by (Ascii.eqb nl) s.

(** [s.count(c)] for a one-character [c]. *)
Fixpoint count (c : ascii) (s : string) : nat :=
  match s with
  | EmptyString => 0
  | String d s' => (if Ascii.eqb d c then 1 else 0) + count c s'
  end.

(** [s.split(c)] for a one-character separator [c]: never empty. *)
Fixpoint split (c : ascii) (s : string) : list string :=
  match s with
  | EmptyString => [EmptyString]
  | String d s' =>
      if Ascii.eqb d c then EmptyString :: split c s'
      else match split c s' with
           | [] => [String d EmptyString]
           | w :: ws => String d w :: ws
           end
  end.

(** [s.startswith(c)] for a one-character prefix. *)
Definition startswith (c : ascii) (s : string) : bool :=
  match s with
  | EmptyString => false
  | String d _ => Ascii.eqb d c
  end.

(** [s.endswith(suffix)] *)
Definition endswith (suffix s : string) : bool :=
  let n := String.length s in
  let k := String.length suffix in
  Nat.leb k n && String.eqb (substring (n - k) k s) suffix.

(** [sep.join(parts)] *)
Fixpoint join (sep : string) (parts : list string) : string :=
  match parts with
  | [] => EmptyString
  | [p] => p
  | p :: ps => p ++ sep ++ join sep ps
  end.

(** [str(n)] for a natural number. *)
Definition of_nat (n : nat) : string := NilZero.string_of_uint (Nat.to_uint n).

(** The text-mode file object of [open(path, 'r')]: universal newlines turn
    CR LF and a lone CR into LF before the program sees the text. *)
Fixpoint universal_newlines (s : string) : string :=
  match s with
  | EmptyString => EmptyString
  | String c s' =>
      if Ascii.eqb c cr then
        match s' with
        | String d s'' =>
            if Ascii.eqb d nl then String nl (universal_newlines s'')
            else String nl (universal_newlines s')
        | EmptyString => String nl EmptyString
        end
      else String c (universal_newlines s')
  end.

(** [f.readline()]: the next line with its terminator, and the rest of the
    file; the empty string at the end of the file. *)
Fixpoint readline (s : string) : string * string :=
  match s with
  | EmptyString => (EmptyString, EmptyString)
  | String c s' =>
      if Ascii.eqb c nl then (String c EmptyString, s')
      else let '(l, rest) := readline s' in (String c l, rest)
  end.

End PyStr.

(** ** The log

    [logging] calls are kept as structured records: the level, the event
    and the values the f-string interpolates.  The handlers [main.py] and
    [logging_utils.py] install print every record and append it to the
    file [compression.log]; that file is not among the files of the file
    systems below, which hold the data files only: the list of records
    stands for what is appended to it. *)

Inductive log_level : Type := DEBUG | INFO | WARNING | ERROR.

Inductive log_event : Type :=
| ParseFailed (file_path : string) (e : exn)
| DynamicColumns
| SeparatorSwitched (sep : ascii)
| StableColumns (n : nat)
| SchemaInitialised
| ChunkWritten (rows : nat)
| ColumnarWritten (output_file : string)
| ColumnarFailed (e : exn)
| CompressDone (original_size : nat)
| CompressFailed (input_file output_file : string) (e : exn)
| DecompressDone (compressed_file output_file : string)
| DecompressFailed (compressed_file : string) (e : exn)
| ExportDone (text_file_path : string)
| ExportFailed (parquet_file_path text_file_path : string) (e : exn)
| ProcessingFile (file_name : string)
| FileCompressed (compressed_file : string)
| FileTime (file_name : string)
| FileFailed (file_name : string) (e : exn)
| FileDecompressed (output_path : string)
| FileDecompressFailed (compressed_file_name : string) (e : exn).

Definition log_record : Type := log_level * log_event.
Definition log : Type := list log_record.

(** The file the logging handlers append to. *)
Definition log_file : string := "compression.log".

(** The file names and paths a log message prints. *)
Definition files_named (ev : log_event) : list string :=
  match ev with
  | ParseFailed p _ => [p]
  | ColumnarWritten p => [p]
  | CompressFailed i o _ => [i; o]
  | DecompressDone c o => [c; o]
  | DecompressFailed c _ => [c]
  | ExportDone p => [p]
  | ExportFailed p t _ => [p; t]
  | ProcessingFile n => [n]
  | FileCompressed p => [p]
  | FileTime n => [n]
  | FileFailed n _ => [n]
  | FileDecompressed p => [p]
  | FileDecompressFailed n _ => [n]
  | _ => []
  end.

(** The exception a log message prints as the cause. *)
Definition cause_named (ev : log_event) : option exn :=
  match ev with
  | ParseFailed _ e | ColumnarFailed e | CompressFailed _ _ e
  | DecompressFailed _ e | ExportFailed _ _ e | FileFailed _ e
  | FileDecompressFailed _ e => Some e
  | _ => None
  end.

(** ** data_processing/data_reader.py *)

Module DataReader.
Import PyStr.

(** What [pd.read_csv(..., chunksize=...)] is called with; the reader it
    returns is lazy, and the chunks it yields are the business of its
    consumer. *)
Record ReaderConfig : Type := {
  rc_path : string;
  rc_sep : ascii;
  rc_names : list string;
  rc_quotechar : ascii;
  rc_escapechar : ascii;
  rc_chunksize : N
}.

(** The [if]/[elif] chain on [file_type] (lines 20-33): separator,
    quote character and escape character. *)
Definition type_hint (file_type : string) : result (ascii * ascii * ascii) :=
  if String.eqb file_type "tbl" then Ok ("|"%char, dquote, "\"%char)
  else if String.eqb file_type "csv" then Ok (","%char, dquote, "\"%char)
  else if String.eqb file_type "txt" then Ok (tab, dquote, "\"%char)
  else Raise (ValueError ("Unsupported file type: " ++ file_type)).

(** Line 38: [sep = '|' if file_path == 'tbl' else ','], which replaces the
    separator chosen from the type hint. *)
Definition default_sep (file_path : string) : ascii :=
  if String.eqb file_path "tbl" then "|"%char else ","%char.

(** Line 42: [[f.readline() for _ in range(20) if f.readline()]].  The
    condition reads a line and drops it; the element, evaluated when that
    line was not empty, reads the line after it. *)
Fixpoint preview (n : nat) (f : string) : list string * string :=
  match n with
  | 0 => ([], f)
  | S n' =>
      let '(cond, f1) := readline f in
      if is_empty cond then preview n' f1
      else
        let '(line, f2) := readline f1 in
        let '(rest, f3) := preview n' f2 in
        (line :: rest, f3)
  end.

(** Line 49: the stripped preview lines that are not blank and do not start
    with [#]. *)
Definition valid_lines_of (preview_lines : list string) : list string :=
  List.map strip
    (List.filter (fun line => negb (is_empty (strip line)) && negb (startswith "#"%char line))
       preview_lines).

Definition column_counts_of (sep : ascii) (valid_lines : list string) : list nat :=
  List.map (fun line => List.length (split sep line)) valid_lines.

(** [collections.Counter], keys in insertion order. *)
Definition Counter : Type := list (ascii * nat).

(** [counter[s] += k] *)
Fixpoint counter_add (c : Counter) (s : ascii) (k : nat) : Counter :=
  match c with
  | [] => [(s, k)]
  | (s', v) :: r =>
      if Ascii.eqb s' s then (s', v + k) :: r else (s', v) :: counter_add r s k
  end.

Definition possible_seps : list ascii := ["|"%char; ","%char; tab].

(** Lines 61-63. *)
Definition count_seps (valid_lines : list string) : Counter :=
  List.fold_left
    (fun c line => List.fold_left (fun c s => counter_add c s (count s line)) possible_seps c)
    valid_lines [].

(** [max(xs, key=key)]: the first element whose key is maximal. *)
Fixpoint max_by {A} (key : A -> nat) (xs : list A) : option A :=
  match xs with
  | [] => None
  | x :: r =>
      match max_by key r with
      | None => Some x
      | Some y => if Nat.ltb (key x) (key y) then Some y else Some x
      end
  end.

(** [counter.most_common(1)[0][0]]: [heapq.nlargest(1, ...)] is [max] by
    count over the items in insertion order. *)
Definition most_common1 (c : Counter) : option ascii :=
  option_map fst (max_by snd c).

(** [xs.count(x)] on a list of numbers. *)
Definition list_count (xs : list nat) (x : nat) : nat :=
  List.length (List.filter (Nat.eqb x) xs).

Definition distinct (xs : list nat) : nat := List.length (nodup Nat.eq_dec xs).

Definition column_names_of (num_columns : nat) : list string :=
  List.map (fun i => "col_" ++ of_nat i) (seq 0 num_columns).

Section Reader.

(** The order in which CPython iterates over [set(column_counts)]; it
    decides which of several equally frequent counts [max] returns. *)
Variable set_order : list nat -> list nat.

(** The body of the [with] block (lines 37-70) on the text of the opened
    file: the log, and either the exception raised or the final values of
    [sep] and of [num_columns], [None] while the name is unbound. *)
Definition infer (file_path : string) (text : string)
  : log * result (ascii * option nat) :=
  let '(l0, f1) := readline text in
  let first_line := strip l0 in
  let sep := default_sep file_path in
  let expected_columns := List.length (split sep first_line) in
  let '(preview_lines, _) := preview 20 f1 in
  match preview_lines with
  | [] => ([], Raise (ValueError "empty file"))
  | _ :: _ =>
      let valid_lines := valid_lines_of preview_lines in
      match valid_lines with
      | [] => ([], Raise (ValueError "no valid data lines"))
      | _ :: _ =>
          let column_counts := column_counts_of sep valid_lines in
          let lg1 := if Nat.ltb 1 (distinct column_counts)
                     then [(WARNING, DynamicColumns)] else [] in
          match most_common1 (count_seps valid_lines) with
          | None => (lg1, Raise (OtherError "IndexError"))
          | Some detected_sep =>
              if negb (Ascii.eqb detected_sep sep) then
                let sep := detected_sep in
                let column_counts := column_counts_of sep valid_lines in
                match max_by (list_count column_counts) (set_order column_counts) with
                | None => ((lg1 ++ [(INFO, SeparatorSwitched detected_sep)])%list,
                           Raise (ValueError "max() arg is an empty sequence"))
                | Some num_columns =>
                    ((lg1 ++ [(INFO, SeparatorSwitched detected_sep);
                              (INFO, StableColumns num_columns)])%list,
                     Ok (sep, Some num_columns))
                end
              else (lg1, Ok (sep, None))
          end
      end
  end.

(** [read_file_data_in_chunks(file_path, file_type)] over a file system
    [fs] from paths to file contents.  An unsupported type is raised before
    the [try]; everything raised inside it is logged and raised again.
    The bytes of the file are used as its text, which is what decoding
    gives for an ASCII file; the decoding of other bytes, and the
    [UnicodeDecodeError] it may raise, are not modelled. *)
Definition read_file_data_in_chunks (fs : gmap string string)
    (file_path file_type : string) : log * result ReaderConfig :=
  match type_hint file_type with
  | Raise e => ([], Raise e)
  | Ok (_, quotechar, escapechar) =>
      let '(lg, r) :=
        match fs !! file_path with
        | None => ([], Raise (FileNotFoundError file_path))
        | Some bytes =>
            match infer file_path (universal_newlines bytes) with
            | (lg, Raise e) => (lg, Raise e)
            | (lg, Ok (sep, None)) => (lg, Raise (UnboundLocalError "num_columns"))
            | (lg, Ok (sep, Some num_columns)) =>
                (lg, Ok {| rc_path := file_path; rc_sep := sep;
                           rc_names := column_names_of num_columns;
                           rc_quotechar := quotechar; rc_escapechar := escapechar;
                           rc_chunksize := 50000%N |})
            end
        end in
      match r with
      | Raise e => ((lg ++ [(ERROR, ParseFailed file_path e)])%list, Raise e)
      | Ok c => (lg, Ok c)
      end
  end.

End Reader.

End DataReader.

(** ** conversion/parquet_converter.py *)

Module ParquetConverter.
Import PyStr.

(** The width of the integer codes of a categorical column: pandas takes
    the narrowest signed type that holds the number of categories. *)
Inductive int_width : Type := Int8 | Int16 | Int32 | Int64.

(** A pandas column type.  [category] is what the reader asks for; such a
    column has the width of its codes, the type of its categories (named
    the way Arrow names it: [string], [null], [int64], ...) and whether the
    categories are ordered, all of which depend on the values of the chunk.
    [object] is a plain string column. *)
Inductive dtype : Type :=
| Category (codes : int_width) (categories : string) (ordered : bool)
| Object.

(** The Arrow types the program meets: the dictionary type of a categorical
    column, the string type, and any other type by its name. *)
Inductive arrow_type : Type :=
| DictionaryT (indices : int_width) (values : string) (ordered : bool)
| StringT
| OtherT (name : string).

(** A row holds one value per column, [None] for a missing value (NaN). *)
Definition Row : Type := list (option string).

(** A frame whose index is a [RangeIndex] or has no name: [df_index] is
    [None] for the first, and the Arrow type of the index values for the
    second. *)
Record DataFrame : Type := {
  df_columns : list string;
  df_dtypes : list dtype;
  df_rows : list Row;
  df_index : option arrow_type
}.

(** [df.shape[1]] and [df.shape[0]] *)
Definition ncols (df : DataFrame) : nat := List.length (df_columns df).
Definition nrows (df : DataFrame) : nat := List.length (df_rows df).

Record Field : Type := {
  f_name : string;
  f_type : arrow_type;
  f_metadata : gmap string string
}.

Record Schema : Type := {
  s_fields : list Field;
  s_metadata : gmap string string
}.

(** The container a writer has produced: its schema, one row group per
    table written, and whether the writer was closed, by [close] or by its
    finalizer. *)
Record ParquetFile : Type := {
  pq_schema : Schema;
  pq_row_groups : list (list Row);
  pq_closed : bool
}.

Definition int_width_eqb (a b : int_width) : bool :=
  match a, b with
  | Int8, Int8 | Int16, Int16 | Int32, Int32 | Int64, Int64 => true
  | _, _ => false
  end.

Definition arrow_type_eqb (a b : arrow_type) : bool :=
  match a, b with
  | DictionaryT i v o, DictionaryT i' v' o' =>
      int_width_eqb i i' && String.eqb v v' && Bool.eqb o o'
  | StringT, StringT => true
  | OtherT n, OtherT n' => String.eqb n n'
  | _, _ => false
  end.

Definition arrow_of_dtype (d : dtype) : arrow_type :=
  match d with
  | Category codes categories ordered => DictionaryT codes categories ordered
  | Object => StringT
  end.

(** [pa.types.is_string(t)] *)
Definition is_string (t : arrow_type) : bool :=
  match t with StringT => true | _ => false end.

(** [schema.with_metadata(m)] and [field.with_metadata(m)] replace the
    metadata. *)
Definition schema_with_metadata (s : Schema) (m : gmap string string) : Schema :=
  {| s_fields := s_fields s; s_metadata := m |}.

Definition field_with_metadata (f : Field) (m : gmap string string) : Field :=
  {| f_name := f_name f; f_type := f_type f; f_metadata := m |}.

(** [schema.get_field_index(name)]: the index of the only field of that
    name, [None] (Python's -1) when there is none or more than one. *)
Fixpoint indices_of (name : string) (fs : list Field) (i : nat) : list nat :=
  match fs with
  | [] => []
  | f :: r =>
      if String.eqb (f_name f) name then i :: indices_of name r (S i)
      else indices_of name r (S i)
  end.

Definition get_field_index (s : Schema) (name : string) : option nat :=
  match indices_of name (s_fields s) 0 with
  | [i] => Some i
  | _ => None
  end.

(** [schema.set(i, field)] *)
Definition schema_set (s : Schema) (i : option nat) (f : Field) : result Schema :=
  match i with
  | Some i =>
      if Nat.ltb i (List.length (s_fields s))
      then Ok {| s_fields := <[i := f]> (s_fields s); s_metadata := s_metadata s |}
      else Raise ArrowInvalid
  | None => Raise ArrowInvalid
  end.

(** [df.columns = [f"col_{i}" for i in range(df.shape[1])]] *)
Definition rename_columns (df : DataFrame) : DataFrame :=
  {| df_columns := List.map (fun i => "col_" ++ of_nat i) (seq 0 (ncols df));
     df_dtypes := df_dtypes df;
     df_rows := df_rows df;
     df_index := df_index df |}.

(** [table.schema.equals(writer.schema, check_metadata=False)] *)
Definition field_eqb (a b : Field) : bool :=
  String.eqb (f_name a) (f_name b) && arrow_type_eqb (f_type a) (f_type b).

Fixpoint fields_eqb (xs ys : list Field) : bool :=
  match xs, ys with
  | [], [] => true
  | x :: xs', y :: ys' => field_eqb x y && fields_eqb xs' ys'
  | _, _ => false
  end.

(** What is on disk at the path of a container: [None] when no such file
    exists. *)
Definition disk : Type := option ParquetFile.

Section Converter.

(** The JSON text [pa.Schema.from_pandas] stores under the [pandas]
    metadata key. *)
Variable pandas_json : DataFrame -> string.

(** [pa.Schema.from_pandas(df, preserve_index=False)] *)
Definition schema_from_pandas (df : DataFrame) : Schema :=
  {| s_fields :=
       List.map (fun '(n, d) => {| f_name := n; f_type := arrow_of_dtype d;
                                    f_metadata := ∅ |})
         (List.combine (df_columns df) (df_dtypes df));
     s_metadata := {[ "pandas" := pandas_json df ]} |}.

(** Lines 23-27: the loop runs over the fields of the schema it started
    from and rebinds [schema] at every string field. *)
Fixpoint annotate_strings (fields : list Field) (schema : Schema) : result Schema :=
  match fields with
  | [] => Ok schema
  | field :: r =>
      if is_string (f_type field) then
        let new_field := field_with_metadata field {[ "compression" := "ZSTD" ]} in
        match schema_set schema (get_field_index schema (f_name field)) new_field with
        | Ok schema' => annotate_strings r schema'
        | Raise e => Raise e
        end
      else annotate_strings r schema
  end.

(** The fields of [pa.Table.from_pandas(chunk)]: those of the columns, and
    one more for an index that is not a [RangeIndex], which is stored as a
    column of the table. *)
Definition table_fields (chunk : DataFrame) : list Field :=
  (s_fields (schema_from_pandas chunk) ++
   match df_index chunk with
   | None => []
   | Some t => [{| f_name := "__index_level_0__"; f_type := t; f_metadata := ∅ |}]
   end)%list.

(** [parquet_writer.write_table(table)] with [table] built from [chunk]:
    the fields of the table must be those of the writer's schema, by name
    and by type. *)
Definition write_table (w : ParquetFile) (chunk : DataFrame) : result ParquetFile :=
  if fields_eqb (table_fields chunk) (s_fields (pq_schema w))
  then Ok {| pq_schema := pq_schema w;
             pq_row_groups := (pq_row_groups w ++ [df_rows chunk])%list;
             pq_closed := pq_closed w |}
  else Raise (ValueError "Table schema does not match schema used to create file").

(** What becomes of the file when the writer goes away: [close] on the
    normal path, the writer's finalizer once an exception has left the
    function and has been dropped.  Either writes the footer. *)
Definition finalize (w : ParquetFile) : ParquetFile :=
  {| pq_schema := pq_schema w; pq_row_groups := pq_row_groups w; pq_closed := true |}.

(** Lines 44-48: the [for] loop over the rest of the iterator.  An element
    [Raise e] is the iterator raising [e] when asked for its next chunk. *)
Fixpoint write_rest (it : list (result DataFrame)) (w : ParquetFile) (lg : log)
  : log * ParquetFile * result unit :=
  match it with
  | [] => (lg, w, Ok tt)
  | Raise e :: _ => (lg, w, Raise e)
  | Ok chunk :: r =>
      let chunk := rename_columns chunk in
      match write_table w chunk with
      | Raise e => (lg, w, Raise e)
      | Ok w' => write_rest r w' (lg ++ [(DEBUG, ChunkWritten (nrows chunk))])%list
      end
  end.

(** The body of the [try] (lines 19-51): the log, what is on disk at
    [output_file] once the writer is gone, and how the body ended. *)
Definition convert_body (chunk_iterator : list (result DataFrame)) (file_type : string)
  : log * disk * result unit :=
  match chunk_iterator with
  | [] => ([], None, Raise StopIteration)
  | Raise e :: _ => ([], None, Raise e)
  | Ok first_chunk :: rest =>
      let schema := schema_from_pandas first_chunk in
      let schema := schema_with_metadata schema {[ "original_extension" := file_type ]} in
      match annotate_strings (s_fields schema) schema with
      | Raise e => ([], None, Raise e)
      | Ok schema =>
          let first_chunk := rename_columns first_chunk in
          let schema := schema_from_pandas first_chunk in
          let w := {| pq_schema := schema; pq_row_groups := []; pq_closed := false |} in
          match write_table w first_chunk with
          | Raise e => ([], Some (finalize w), Raise e)
          | Ok w =>
              match write_rest rest w [(INFO, SchemaInitialised)] with
              | (lg, w, Raise e) => (lg, Some (finalize w), Raise e)
              | (lg, w, Ok _) => (lg, Some (finalize w), Ok tt)
              end
          end
      end
  end.

(** [convert_to_columnar_in_chunks] of [parquet_converter.py]: the handler
    logs the error and raises it again. *)
Definition convert_to_columnar_in_chunks (chunk_iterator : list (result DataFrame))
    (output_file file_type : string) : log * disk * result unit :=
  match convert_body chunk_iterator file_type with
  | (lg, d, Ok _) => ((lg ++ [(INFO, ColumnarWritten output_file)])%list, d, Ok tt)
  | (lg, d, Raise e) => ((lg ++ [(ERROR, ColumnarFailed e)])%list, d, Raise e)
  end.

End Converter.

(** *** Columnar to text *)

Definition quote : ascii := dquote.

Fixpoint contains (p : ascii -> bool) (s : string) : bool :=
  match s with
  | EmptyString => false
  | String c s' => p c || contains p s'
  end.

(** [csv.writer] with the default minimal quoting: a value is quoted when
    it holds the delimiter, the quote character or a character of the line
    terminator, and a quote inside it is doubled. *)
Definition needs_quote (sep : ascii) (s : string) : bool :=
  contains (fun c => Ascii.eqb c sep || Ascii.eqb c quote || Ascii.eqb c nl) s.

Fixpoint double_quotes (s : string) : string :=
  match s with
  | EmptyString => EmptyString
  | String c s' =>
      if Ascii.eqb c quote then String quote (String quote (double_quotes s'))
      else String c (double_quotes s')
  end.

Definition render_field (sep : ascii) (v : option string) : string :=
  match v with
  | None => EmptyString
  | Some s =>
      if needs_quote sep s then String quote (double_quotes s ++ String quote EmptyString)
      else s
  end.

(** One record: the values joined by the separator; a record that would be
    empty (one empty value) is written as a pair of quotes. *)
Definition render_row (sep : ascii) (r : Row) : string :=
  let line := join (String sep EmptyString) (List.map (render_field sep) r) in
  match r with
  | [] => line
  | _ :: _ => if is_empty line then String quote (String quote EmptyString) else line
  end.

(** [df.to_csv(sep=sep, header=False, index=False, lineterminator='\n')] *)
Fixpoint to_csv (sep : ascii) (rows : list Row) : string :=
  match rows with
  | [] => EmptyString
  | r :: rs => render_row sep r ++ String nl EmptyString ++ to_csv sep rs
  end.

(** Lines 70-77 *)
Definition export_sep (file_type : string) : result ascii :=
  if String.eqb file_type "tbl" then Ok "|"%char
  else if String.eqb file_type "csv" then Ok ","%char
  else if String.eqb file_type "txt" then Ok tab
  else Raise (ValueError ("unsupported file type: " ++ file_type)).

(** Lines 82-95: the loop over the batches, the text written to [f] so far
    and [is_first_chunk] as its state. *)
Fixpoint write_batches (sep : ascii) (batches : list (list Row))
    (written : string) (is_first_chunk : bool) : string :=
  match batches with
  | [] => written
  | batch :: rest =>
      let df_string := to_csv sep batch in
      let written := if negb is_first_chunk then written ++ String nl EmptyString
                     else written in
      let written := written ++ strip_nl df_string in
      write_batches sep rest written false
  end.

Section Exporter.

(** [parquet_file.iter_batches(batch_size=n)]: how the reader cuts the rows
    of the container into batches. *)
Variable iter_batches : N -> ParquetFile -> list (list Row).

(** [convert_parquet_to_text_in_chunks(parquet_file_path, text_file_path,
    file_type)]: [opened] is what [pq.ParquetFile(parquet_file_path)]
    gives, the container or the exception it raises; the result holds the
    log, what is on disk at [text_file_path] afterwards ([None]: the file
    was not opened for writing) and how the call ended.  An unsupported
    type is raised before the [try]. *)
Definition convert_parquet_to_text_in_chunks (opened : result ParquetFile)
    (parquet_file_path text_file_path file_type : string)
  : log * option string * result unit :=
  match export_sep file_type with
  | Raise e => ([], None, Raise e)
  | Ok sep =>
      match opened with
      | Raise e =>
          ([(ERROR, ExportFailed parquet_file_path text_file_path e)], None, Raise e)
      | Ok pf =>
          ([(INFO, ExportDone text_file_path)],
           Some (write_batches sep (iter_batches 50000%N pf) EmptyString true),
           Ok tt)
      end
  end.

End Exporter.

End ParquetConverter.

(** ** Vocabulary of the properties *)

Module Props.
Import PyStr ParquetConverter.

Definition LF : string := String nl EmptyString.

Fixpoint no_newline (s : string) : bool :=
  match s with
  | EmptyString => true
  | String c s' => negb (Ascii.eqb c nl) && no_newline s'
  end.

Fixpoint last_char (s : string) : option ascii :=
  match s with
  | EmptyString => None
  | String c EmptyString => Some c
  | String _ s' => last_char s'
  end.

(** The number of newline characters of a text. *)
Definition newlines (s : string) : nat := count nl s.

Definition total_row_count (batches : list (list Row)) : nat :=
  List.length (List.concat batches).

(** A value without a line break inside. *)
Definition plain_value (v : option string) : bool :=
  match v with None => true | Some s => no_newline s end.

(** A row of at least one column whose values hold no line break. *)
Definition plain_row (r : Row) : bool :=
  negb (Nat.eqb (List.length r) 0) && forallb plain_value r.

(** What the exporter writes for one batch: its rendering without the
    newlines at either end. *)
Definition stripped (sep : ascii) (batch : list Row) : string :=
  strip_nl (to_csv sep batch).

(** A batch of at least one row, all of them plain. *)
Definition plain_batch (b : list Row) : bool :=
  negb (Nat.eqb (List.length b) 0) && forallb plain_row b.

End Props.

(** ** compression/zstd_compressor.py *)

Module ZstdCompressor.
Import PyStr.

(** The data files on disk: path to bytes. *)
Abbreviation FS := (gmap string string).

(** [f.read(n)] on the unread part of a file: the chunk and what is left. *)
Fixpoint read (n : N) (src : string) : string * string :=
  match src with
  | EmptyString => (EmptyString, EmptyString)
  | String c s' =>
      if N.eqb n 0 then (EmptyString, src)
      else let '(chunk, rest) := read (N.pred n) s' in (String c chunk, rest)
  end.

(** The copy loop [while True: chunk = f_in.read(chunk_size); if not chunk:
    break; compressor.write(chunk)]: the chunks handed to the compressor.
    Every round that does not break consumes a byte, so the length of the
    input plus one is fuel enough. *)
Fixpoint read_chunks (fuel : nat) (chunk_size : N) (src : string) : list string :=
  match fuel with
  | 0 => []
  | S fuel' =>
      let '(chunk, rest) := read chunk_size src in
      if is_empty chunk then [] else chunk :: read_chunks fuel' chunk_size rest
  end.

(** The read loop of the decompressor over the results of the successive
    [reader.read(chunk_size)] calls: the bytes written to [f_out], and how
    the loop ended. *)
Fixpoint drain (reads : list (result string)) (out : string) : string * result unit :=
  match reads with
  | [] => (out, Ok tt)
  | Ok chunk :: r => if is_empty chunk then (out, Ok tt) else drain r (out ++ chunk)
  | Raise e :: _ => (out, Raise e)
  end.

Definition getsize (fs : FS) (path : string) : nat :=
  String.length (default EmptyString (fs !! path)).

Section Codec.

(** What [ZstdCompressor(level=18, threads=...).stream_writer] has written
    to its sink once closed, from the chunks written to it. *)
Variable zstd_compress : list string -> string.

(** What the successive [read] calls of [ZstdDecompressor().stream_reader]
    return on an archive: chunks, then the empty chunk, or an exception on
    an archive the codec rejects. *)
Variable zstd_reads : string -> N -> list (result string).

(** Lines 17-29 of [compress_with_zstd]: both files are opened (the output
    one is created or emptied), the input is copied through the compressor,
    and the two sizes are taken.  [None] when the input cannot be opened. *)
Definition compress_stream (chunk_size : N) (fs : FS) (input_file output_file : string)
  : option (FS * nat * nat) :=
  match fs !! input_file with
  | None => None
  | Some _ =>
      let fs := <[output_file := EmptyString]> fs in
      let src := default EmptyString (fs !! input_file) in
      let chunks := read_chunks (S (String.length src)) chunk_size src in
      let fs := <[output_file := zstd_compress chunks]> fs in
      Some (fs, getsize fs input_file, getsize fs output_file)
  end.

(** [compress_with_zstd(input_file, output_file)] of [zstd_compressor.py]:
    the ratio is computed after the archive is written; the handler logs
    and raises again. *)
Definition compress_with_zstd (fs : FS) (input_file output_file : string)
  : log * FS * result (nat * nat) :=
  match compress_stream (4096000 * 1024)%N fs input_file output_file with
  | None =>
      ([(ERROR, CompressFailed input_file output_file (FileNotFoundError input_file))],
       fs, Raise (FileNotFoundError input_file))
  | Some (fs, original_size, compressed_size) =>
      if Nat.eqb original_size 0 then
        ([(ERROR, CompressFailed input_file output_file ZeroDivisionError)],
         fs, Raise ZeroDivisionError)
      else
        ([(INFO, CompressDone original_size)], fs, Ok (original_size, compressed_size))
  end.

(** [decompress_with_zstd(compressed_file, output_file)]: the output file
    is created when it is opened, receives every chunk read before the loop
    ends, and is closed by the [with] statement also when the reader
    raises; the handler logs and raises again. *)
Definition decompress_with_zstd (fs : FS) (compressed_file output_file : string)
  : log * FS * result unit :=
  match fs !! compressed_file with
  | None =>
      ([(ERROR, DecompressFailed compressed_file (FileNotFoundError compressed_file))],
       fs, Raise (FileNotFoundError compressed_file))
  | Some _ =>
      let fs := <[output_file := EmptyString]> fs in
      let archive := default EmptyString (fs !! compressed_file) in
      let '(out, r) := drain (zstd_reads archive (4096 * 1024)%N) EmptyString in
      let fs := <[output_file := out]> fs in
      match r with
      | Ok _ => ([(INFO, DecompressDone compressed_file output_file)], fs, Ok tt)
      | Raise e => ([(ERROR, DecompressFailed compressed_file e)], fs, Raise e)
      end
  end.

End Codec.

End ZstdCompressor.

(** ** utils/compression_stats.py *)

Module CompressionStats.

(** The statistics dictionary; its two wall-clock totals are left out. *)
Record Stats : Type := {
  total_original : nat;
  total_compressed : nat;
  file_count : nat
}.

Definition init_compression_stats : Stats :=
  {| total_original := 0; total_compressed := 0; file_count := 0 |}.

Definition update_compression_stats (stats : Stats) (original_size compressed_size : nat)
  : Stats :=
  {| total_original := total_original stats + original_size;
     total_compressed := total_compressed stats + compressed_size;
     file_count := file_count stats + 1 |}.

End CompressionStats.

(** ** os.path *)

Module OsPath.
Import PyStr.

(** [s.rfind(c)]: the last index of [c], [None] for Python's -1. *)
Fixpoint rfind (c : ascii) (s : string) : option nat :=
  match s with
  | EmptyString => None
  | String d s' =>
      match rfind c s' with
      | Some i => Some (S i)
      | None => if Ascii.eqb d c then Some 0 else None
      end
  end.

(** Whether some character of [s] is not a dot. *)
Fixpoint has_non_dot (s : string) : bool :=
  match s with
  | EmptyString => false
  | String c s' => negb (Ascii.eqb c "."%char) || has_non_dot s'
  end.

(** [posixpath.splitext(p)]: the extension starts at the last dot of the
    last path component, unless only dots come before it there. *)
Definition splitext (p : string) : string * string :=
  let name_start := match rfind "/"%char p with Some i => S i | None => 0 end in
  match rfind "."%char p with
  | None => (p, EmptyString)
  | Some dot =>
      if Nat.leb name_start dot
         && has_non_dot (substring name_start (dot - name_start) p)
      then (substring 0 dot p, substring dot (String.length p - dot) p)
      else (p, EmptyString)
  end.

(** [os.path.join(a, b)] for two components. *)
Definition join (a b : string) : string :=
  if startswith "/"%char b then b
  else if is_empty a || endswith "/" a then a ++ b
  else a ++ "/" ++ b.

(** [s[1:]] *)
Definition tail (s : string) : string :=
  match s with EmptyString => EmptyString | String _ s' => s' end.

End OsPath.

(** ** main.py

    [main.py] repeats the modules' functions; of each name the last
    definition in the file is the one [compressmain] and [decompressmain]
    call.  For [read_file_data_in_chunks], [decompress_with_zstd] and
    [convert_parquet_to_text_in_chunks] that one does what the module's
    does; [convert_to_columnar_in_chunks] and [compress_with_zstd] differ
    and are given here. *)

Module Main.
Import PyStr OsPath ParquetConverter CompressionStats.

Definition data_dir : string := "data".
Definition compress_dir : string := "compress".
Definition decompress_dir : string := "decompress".

(** The program's state: the files on disk, the global
    [compression_stats] and the log. *)
Record World : Type := {
  w_fs : gmap string string;
  w_stats : Stats;
  w_log : log
}.

Definition with_log (w : World) (l : log) : World :=
  {| w_fs := w_fs w; w_stats := w_stats w; w_log := (w_log w ++ l)%list |}.

Definition with_fs (w : World) (fs : gmap string string) : World :=
  {| w_fs := fs; w_stats := w_stats w; w_log := w_log w |}.

Definition with_stats (w : World) (s : Stats) : World :=
  {| w_fs := w_fs w; w_stats := s; w_log := w_log w |}.

(** [file_name.endswith((".tbl", ".csv", ".txt"))] *)
Definition is_data_file (file_name : string) : bool :=
  endswith ".tbl" file_name || endswith ".csv" file_name || endswith ".txt" file_name.

(** Lines 657, 658, 663 and 666: the names derived from [file_name]. *)
Definition file_type_of (file_name : string) : string :=
  List.last (split "."%char file_name) EmptyString.

Definition base_name_of (file_name : string) : string := fst (splitext file_name).

Definition temp_parquet_of (file_name : string) : string :=
  join compress_dir (base_name_of file_name ++ ".parquet").

Definition compressed_file_of (file_name : string) : string :=
  join compress_dir (base_name_of file_name ++ ".zstd").

(** Lines 699-701: [metadata.get(b'original_extension', b'tbl')] on the
    schema metadata, which is [None] for a schema without any. *)
Definition read_original_extension (pf : ParquetFile) : result string :=
  let metadata := s_metadata (pq_schema pf) in
  if decide (metadata = ∅) then Raise (OtherError "AttributeError")
  else Ok (default "tbl" (metadata !! "original_extension")).

Section Pipeline.

(** The libraries the program calls. *)
Variable set_order : list nat -> list nat.
Variable pandas_json : DataFrame -> string.
(** The chunks the lazy reader of [pd.read_csv] yields for a file text. *)
Variable pandas_chunks : DataReader.ReaderConfig -> string -> list (result DataFrame).
(** The bytes of a container on disk, and the container
    [pq.ParquetFile(path)] finds in such bytes. *)
Variable pq_bytes : ParquetFile -> string.
Variable pq_open : string -> option ParquetFile.
Variable iter_batches : N -> ParquetFile -> list (list Row).
Variable zstd_compress : list string -> string.
Variable zstd_reads : string -> N -> list (result string).

(** [convert_to_columnar_in_chunks] of [main.py] (lines 486-529): the
    handler logs the error and does not raise it again. *)
Definition convert_to_columnar_in_chunks (chunk_iterator : list (result DataFrame))
    (output_file file_type : string) : log * disk * result unit :=
  match convert_body pandas_json chunk_iterator file_type with
  | (lg, d, Ok _) => ((lg ++ [(INFO, ColumnarWritten output_file)])%list, d, Ok tt)
  | (lg, d, Raise e) => ((lg ++ [(ERROR, ColumnarFailed e)])%list, d, Ok tt)
  end.

(** [compress_with_zstd] of [main.py] (lines 532-562): the global
    statistics are updated before the ratio is computed. *)
Definition compress_with_zstd (w : World) (input_file output_file : string)
  : World * result unit :=
  match ZstdCompressor.compress_stream zstd_compress (4096000 * 1024)%N
          (w_fs w) input_file output_file with
  | None =>
      (with_log w [(ERROR, CompressFailed input_file output_file
                             (FileNotFoundError input_file))],
       Raise (FileNotFoundError input_file))
  | Some (fs, original_size, compressed_size) =>
      let w := with_fs w fs in
      let w := with_stats w
                 (update_compression_stats (w_stats w) original_size compressed_size) in
      if Nat.eqb original_size 0 then
        (with_log w [(ERROR, CompressFailed input_file output_file ZeroDivisionError)],
         Raise ZeroDivisionError)
      else (with_log w [(INFO, CompressDone original_size)], Ok tt)
  end.

(** What a conversion leaves at [output_file]. *)
Definition store (fs : gmap string string) (output_file : string) (d : disk)
  : gmap string string :=
  match d with
  | None => fs
  | Some pf => <[output_file := pq_bytes pf]> fs
  end.

(** [os.remove(path)] *)
Definition remove (w : World) (path : string) : World * result unit :=
  match w_fs w !! path with
  | None => (w, Raise (FileNotFoundError path))
  | Some _ => (with_fs w (delete path (w_fs w)), Ok tt)
  end.

(** The [try] block of [compressmain] for one file (lines 655-674). *)
Definition compress_steps (w : World) (file_name : string) : World * result unit :=
  let file_path := join data_dir file_name in
  let file_type := file_type_of file_name in
  let w := with_log w [(INFO, ProcessingFile file_name)] in
  match DataReader.read_file_data_in_chunks set_order (w_fs w) file_path file_type with
  | (lg, Raise e) => (with_log w lg, Raise e)
  | (lg, Ok cfg) =>
      let w := with_log w lg in
      let chunk_iterator :=
        pandas_chunks cfg (default EmptyString (w_fs w !! file_path)) in
      let temp_parquet := temp_parquet_of file_name in
      let '(lg, d, _) := convert_to_columnar_in_chunks chunk_iterator temp_parquet file_type in
      let w := with_log (with_fs w (store (w_fs w) temp_parquet d)) lg in
      let compressed_file := compressed_file_of file_name in
      match compress_with_zstd w temp_parquet compressed_file with
      | (w, Raise e) => (w, Raise e)
      | (w, Ok _) =>
          match remove w temp_parquet with
          | (w, Raise e) => (w, Raise e)
          | (w, Ok _) =>
              (with_log w [(INFO, FileCompressed compressed_file);
                           (INFO, FileTime file_name)], Ok tt)
          end
      end
  end.

(** One round of the loop of [compressmain]: the handler logs the failure
    with the file name and the loop goes on. *)
Definition compress_file (w : World) (file_name : string) : World :=
  if is_data_file file_name then
    match compress_steps w file_name with
    | (w, Ok _) => w
    | (w, Raise e) => with_log w [(ERROR, FileFailed file_name e)]
    end
  else w.

(** [compressmain()], over the names [os.listdir(data_dir)] returns. *)
Definition compressmain (listing : list string) (w : World) : World :=
  List.fold_left compress_file listing w.

(** [pq.ParquetFile(path)] *)
Definition open_container (fs : gmap string string) (path : string)
  : result ParquetFile :=
  match fs !! path with
  | None => Raise (FileNotFoundError path)
  | Some bytes =>
      match pq_open bytes with
      | None => Raise ArrowInvalid
      | Some pf => Ok pf
      end
  end.

(** The [try] block of [decompressmain] for one archive (lines 688-712). *)
Definition decompress_steps (w : World) (compressed_file_name : string)
  : World * result unit :=
  let compressed_file_path := join compress_dir compressed_file_name in
  let base_name := fst (splitext compressed_file_name) in
  let original_name_without_ext := fst (splitext base_name) in
  let original_ext := tail (snd (splitext base_name)) in
  let decompressed_parquet :=
    join compress_dir (original_name_without_ext ++ ".parquet") in
  match ZstdCompressor.decompress_with_zstd zstd_reads (w_fs w)
          compressed_file_path decompressed_parquet with
  | (lg, fs, Raise e) => (with_log (with_fs w fs) lg, Raise e)
  | (lg, fs, Ok _) =>
      let w := with_log (with_fs w fs) lg in
      match open_container (w_fs w) decompressed_parquet with
      | Raise e => (w, Raise e)
      | Ok pf =>
          match read_original_extension pf with
          | Raise e => (w, Raise e)
          | Ok original_ext =>
              let output_file_name := original_name_without_ext ++ "." ++ original_ext in
              let output_path := join decompress_dir output_file_name in
              match convert_parquet_to_text_in_chunks iter_batches
                      (open_container (w_fs w) decompressed_parquet)
                      decompressed_parquet output_path original_ext with
              | (lg, out, r) =>
                  let fs := match out with
                            | Some text => <[output_path := text]> (w_fs w)
                            | None => w_fs w
                            end in
                  let w := with_log (with_fs w fs) lg in
                  match r with
                  | Raise e => (w, Raise e)
                  | Ok _ =>
                      match remove w decompressed_parquet with
                      | (w, Raise e) => (w, Raise e)
                      | (w, Ok _) =>
                          (with_log w [(INFO, FileDecompressed output_path)], Ok tt)
                      end
                  end
              end
          end
      end
  end.

Definition decompress_file (w : World) (compressed_file_name : string) : World :=
  if endswith ".zstd" compressed_file_name then
    match decompress_steps w compressed_file_name with
    | (w, Ok _) => w
    | (w, Raise e) => with_log w [(ERROR, FileDecompressFailed compressed_file_name e)]
    end
  else w.

(** [decompressmain()], over the names [os.listdir(compress_dir)] returns. *)
Definition decompressmain (listing : list string) (w : World) : World :=
  List.fold_left decompress_file listing w.

End Pipeline.

End Main.

(** ** Sample inputs

    Concrete files, chunks and library behaviours on which the theorems
    below are instantiated. *)

Module Samples.
Import PyStr ParquetConverter Props.

Definition csv_text : string :=
  "a,b,c" ++ LF ++ "1,2,3" ++ LF ++ "4,5,6" ++ LF.

Definition tbl_text : string :=
  "a|b|c" ++ LF ++ "1|2|3" ++ LF ++ "4|5|6" ++ LF.

(** A chunk of two category columns, named by position as the reader
    names them. *)
Definition chunk (rows : list Row) : DataFrame :=
  {| df_columns := ["col_0"; "col_1"];
     df_dtypes := [Category Int8 "string" false; Category Int8 "string" false];
     df_rows := rows; df_index := None |}.

Definition set_order (xs : list nat) : list nat := nodup Nat.eq_dec xs.
Definition pandas_json (df : DataFrame) : string := "{}".
Definition pq_bytes (pf : ParquetFile) : string := "PAR1".
Definition pq_open (bytes : string) : option ParquetFile := None.
Definition iter_batches (n : N) (pf : ParquetFile) : list (list Row) := pq_row_groups pf.
Definition zstd_compress (chunks : list string) : string :=
  "(zstd)" ++ String.concat "" chunks.

(** A reader that yields the rows after the header-less first line in one
    chunk. *)
Definition good_chunks (cfg : DataReader.ReaderConfig) (text : string)
  : list (result DataFrame) :=
  [Ok {| df_columns := DataReader.rc_names cfg;
         df_dtypes := [Category Int8 "string" false; Category Int8 "string" false;
                       Category Int8 "string" false];
         df_rows := [[Some "a"; Some "b"; Some "c"]; [Some "1"; Some "2"; Some "3"];
                     [Some "4"; Some "5"; Some "6"]];
         df_index := None |}].

(** A reader that yields one good chunk and then meets a row it cannot
    parse. *)
Definition failing_chunks (cfg : DataReader.ReaderConfig) (text : string)
  : list (result DataFrame) :=
  [Ok (chunk [[Some "1"; Some "2"]]); Raise (OtherError "ParserError")].

(** A stream reader that returns four bytes and then rejects the archive. *)
Definition failing_reads (archive : string) (n : N) : list (result string) :=
  [Ok "PAR1"; Raise ZstdError].

Definition world (fs : gmap string string) : Main.World :=
  {| Main.w_fs := fs; Main.w_stats := CompressionStats.init_compression_stats;
     Main.w_log := [] |}.

Definition csv_world : Main.World := world {[ "data/t.csv" := csv_text ]}.
Definition tbl_world : Main.World := world {[ "data/t.tbl" := tbl_text ]}.
Definition empty_container_world : Main.World :=
  world {[ "compress/e.parquet" := EmptyString ]}.
Definition truncated_world : Main.World :=
  world {[ "compress/customer.zstd" := "(half of an archive)" ]}.

Definition bytes_of (codes : list nat) : string :=
  List.fold_right (fun n s => String (ascii_of_nat n) s) EmptyString codes.

(** The first 13 of the 27 bytes of an archive of one frame: the magic
    number, the frame header, the header of the only block (compressed, 18
    bytes long) and the first four bytes of that block. *)
Definition half_archive : string :=
  bytes_of [40; 181; 47; 253; 0; 88; 149; 0; 0; 84; 0; 0; 80].

(** The stream reader on such a half: the block cannot be decoded before
    the source ends, and at the end of the source [read] returns the empty
    chunk; the reader does not raise. *)
Definition end_of_source_reads (archive : string) (n : N) : list (result string) :=
  [Ok EmptyString].

Definition half_archive_world : Main.World :=
  world {[ "compress/customer.zstd" := half_archive ]}.

End Samples.

(** ** Further vocabulary *)

Module Vocabulary.
Import PyStr.

(** The concatenation of a list of chunks. *)
Definition cat (chunks : list string) : string :=
  List.fold_right String.append EmptyString chunks.

Definition non_empty (s : string) : bool := negb (is_empty s).



(** A text without a dot and without a slash in it. *)
Definition no_dot_no_slash (s : string) : bool :=
  negb (ParquetConverter.contains
          (fun c => Ascii.eqb c "."%char || Ascii.eqb c "/"%char) s).

(** A file name without its extension, as [os.listdir] gives it: not
    empty, no dot, no slash. *)
Definition simple_name (s : string) : bool := non_empty s && no_dot_no_slash s.

(** How often a character occurs in all the lines together. *)
Definition total (c : ascii) (lines : list string) : nat :=
  list_sum (List.map (count c) lines).

End Vocabulary.

(** ** Further sample inputs *)

Module MoreSamples.
Import PyStr ParquetConverter Props.

(** A file system with one container in it. *)
Definition stored_fs : gmap string string := {[ "compress/t.parquet" := "PAR1" ]}.

(** A stream reader for the archives of [Samples.zstd_compress]: it hands
    out what follows the six bytes of the prefix, and then the empty
    chunk. *)
Definition echo_reads (archive : string) (n : N) : list (result string) :=
  [Ok (substring 6 (String.length archive - 6) archive); Ok EmptyString].


(** The container behind the bytes of [stored_fs], as written for one
    chunk, and a container whose metadata names an extension that is none
    of the three. *)
Definition stored_container : ParquetFile :=
  {| pq_schema := schema_from_pandas Samples.pandas_json
                    (Samples.chunk [[Some "1"; Some "2"]]);
     pq_row_groups := [[[Some "1"; Some "2"]]];
     pq_closed := true |}.

Definition foreign_container : ParquetFile :=
  {| pq_schema := {| s_fields := s_fields (pq_schema stored_container);
                     s_metadata := {[ "original_extension" := "dat" ]} |};
     pq_row_groups := [[[Some "1"; Some "2"]]];
     pq_closed := true |}.

Definition open_stored (bytes : string) : option ParquetFile :=
  if String.eqb bytes "PAR1" then Some stored_container else None.

Definition open_foreign (bytes : string) : option ParquetFile :=
  if String.eqb bytes "PAR1" then Some foreign_container else None.

(** A state with one archive in the compression directory. *)
Definition archive_world : Main.World :=
  Samples.world {[ "compress/t.zstd" := "(zstd)PAR1" ]}.

End MoreSamples.

Module Layout.
Import ParquetConverter.






End Layout.

(** ** main.py: the summary of the statistics (lines 289-318) *)

Module Summary.
Import CompressionStats.

(** What [print_summary_stats] does besides raising: it logs a warning and
    prints nothing, or it prints the figures of the statistics (the
    formatting of the numbers is left out). *)
Inductive report : Type :=
| NothingToReport
| Printed (files original compressed : nat).

(** [print_summary_stats(stats)] as [main.py] has it, where [logging] is
    imported: no report without files; the overall ratio divides by the
    total original size. *)
Definition print_summary_stats (stats : Stats) : result report :=
  if Nat.eqb (file_count stats) 0 then Ok NothingToReport
  else if Nat.eqb (total_original stats) 0 then Raise ZeroDivisionError
  else Ok (Printed (file_count stats) (total_original stats) (total_compressed stats)).

(** The statistics after one [update_compression_stats] per pair of
    sizes. *)
Definition record_all (sizes : list (nat * nat)) (stats : Stats) : Stats :=
  List.fold_left (fun s '(original_size, compressed_size) =>
                    update_compression_stats s original_size compressed_size)
    sizes stats.

End Summary.

(** * Properties *)

Module DataReaderFacts.
Import PyStr DataReader Props.

Lemma readline_line (l rest : string) :
  no_newline l = true -> readline (l ++ LF ++ rest) = (l ++ LF, rest).
Proof.
  induction l as [|c l IH]; simpl; intros H.
  - reflexivity.
  - apply andb_prop in H as [Hc Hl].
    destruct (Ascii.eqb c nl); [discriminate|].
    rewrite (IH Hl). reflexivity.
Qed.

Lemma is_empty_line (l : string) : is_empty (l ++ LF) = false.
Proof. destruct l; reflexivity. Qed.

(** C9 (code as written): of the lines after the first, the comprehension
    drops one for every one it keeps.  With [l2] and [l3] the second and
    third line of the file, the first sampled line is [l3]; [l2] is read by
    the condition and lost, and so on down the file. *)
Theorem preview_skips_every_other_line (n : nat) (l2 l3 rest : string) :
  no_newline l2 = true -> no_newline l3 = true ->
  preview (S n) (l2 ++ LF ++ l3 ++ LF ++ rest)
  = ((l3 ++ LF) :: fst (preview n rest), snd (preview n rest)).
Proof.
  intros H2 H3. cbn [preview].
  rewrite (readline_line l2 _ H2), is_empty_line.
  rewrite (readline_line l3 _ H3).
  destruct (preview n rest); reflexivity.
Qed.

Lemma preview_skips_every_other_line_witness :
  preview 20 ("1,2,3" ++ LF ++ "4,5,6" ++ LF ++ "7,8,9" ++ LF)
  = (["4,5,6" ++ LF; ""], "").
Proof.
  rewrite (preview_skips_every_other_line 19 "1,2,3" "4,5,6" ("7,8,9" ++ LF));
    reflexivity.
Defined.

(** C4 (code as written): the separator the fields are counted with is not
    the one of the type hint: it is the comma for every file whose path is
    not the three letters [tbl], whatever its type. *)
Theorem default_sep_is_comma (file_path : string) :
  file_path <> "tbl" -> default_sep file_path = ","%char.
Proof.
  intros Hp. unfold default_sep.
  destruct (String.eqb_spec file_path "tbl"); [contradiction|reflexivity].
Qed.

Section Facts.
Variable set_order : list nat -> list nat.

(** C3 (code as written): schema inference returns a reader only after it
    has replaced the default separator by another one, which the log
    records; it never succeeds with the default separator. *)
Theorem read_succeeds_only_after_switch (fs : gmap string string)
    (file_path file_type : string) (lg : log) (cfg : ReaderConfig) :
  read_file_data_in_chunks set_order fs file_path file_type = (lg, Ok cfg) ->
  In (INFO, SeparatorSwitched (rc_sep cfg)) lg /\ rc_sep cfg <> default_sep file_path.
Proof.
  unfold read_file_data_in_chunks.
  destruct (type_hint file_type) as [[[s q] e]|]; [|discriminate].
  destruct (fs !! file_path) as [bytes|]; [|discriminate].
  unfold infer.
  destruct (readline (universal_newlines bytes)) as [l0 f1].
  destruct (preview 20 f1) as [pl f2].
  destruct pl as [|p pl]; [discriminate|].
  destruct (valid_lines_of (p :: pl)) as [|v vl]; [discriminate|].
  destruct (most_common1 (count_seps (v :: vl))) as [d|]; [|discriminate].
  destruct (Ascii.eqb_spec d (default_sep file_path)) as [Heq|Hne]; cbn [negb].
  - discriminate.
  - destruct (max_by _ _) as [k|]; [|discriminate].
    intros H. injection H as <- <-. cbn [rc_sep]. split; [|exact Hne].
    apply in_or_app. right. left. reflexivity.
Qed.

(** When the detected separator is the default one, [num_columns] is not
    bound and the call raises. *)
Lemma read_unbound_num_columns (fs : gmap string string) (file_path file_type : string)
    (hint : ascii * ascii * ascii) (text : string) (lg : log) (sep : ascii) :
  type_hint file_type = Ok hint ->
  fs !! file_path = Some text ->
  infer set_order file_path (universal_newlines text) = (lg, Ok (sep, None)) ->
  read_file_data_in_chunks set_order fs file_path file_type
  = ((lg ++ [(ERROR, ParseFailed file_path (UnboundLocalError "num_columns"))])%list,
     Raise (UnboundLocalError "num_columns")).
Proof.
  intros Ht Hf Hi. unfold read_file_data_in_chunks.
  rewrite Ht. destruct hint as [[s q] e]. rewrite Hf, Hi. reflexivity.
Qed.

End Facts.

Lemma default_sep_is_comma_witness :
  type_hint "tbl" = Ok ("|"%char, dquote, "\"%char)
  /\ default_sep "data/customer.tbl" = ","%char.
Proof.
  split; [reflexivity|].
  apply (default_sep_is_comma "data/customer.tbl"). discriminate.
Defined.

Lemma read_succeeds_only_after_switch_witness :
  let cfg := {| rc_path := "data/t.tbl"; rc_sep := "|"%char;
                rc_names := ["col_0"; "col_1"; "col_2"];
                rc_quotechar := PyStr.dquote; rc_escapechar := "\"%char;
                rc_chunksize := 50000%N |} in
  In (INFO, SeparatorSwitched (rc_sep cfg))
     [(INFO, SeparatorSwitched "|"%char); (INFO, StableColumns 3)]
  /\ rc_sep cfg <> default_sep "data/t.tbl".
Proof.
  apply (read_succeeds_only_after_switch Samples.set_order
           (Main.w_fs Samples.tbl_world) "data/t.tbl" "tbl").
  reflexivity.
Defined.

(** The comma-separated sample, read as [csv]: the detected separator is
    the default one and the call raises. *)
Example read_csv_sample :
  read_file_data_in_chunks Samples.set_order (Main.w_fs Samples.csv_world)
    "data/t.csv" "csv"
  = ([(ERROR, ParseFailed "data/t.csv" (UnboundLocalError "num_columns"))],
     Raise (UnboundLocalError "num_columns")).
Proof. reflexivity. Qed.

End DataReaderFacts.

Module ExportFacts.
Import PyStr ParquetConverter Props.

Lemma count_app (c : ascii) (a b : string) : count c (a ++ b) = count c a + count c b.
Proof. induction a as [|d a IH]; simpl; [reflexivity|]. rewrite IH. lia. Qed.

Lemma no_newline_app (a b : string) :
  no_newline (a ++ b) = no_newline a && no_newline b.
Proof.
  induction a as [|d a IH]; simpl; [reflexivity|].
  rewrite IH. now rewrite andb_assoc.
Qed.

Lemma no_newline_count (s : string) : no_newline s = true -> count nl s = 0.
Proof.
  induction s as [|d s IH]; simpl; [reflexivity|].
  intros H. apply andb_prop in H as [Hd Hs].
  destruct (Ascii.eqb d nl); [discriminate|]. now rewrite IH.
Qed.

Lemma is_empty_app (a b : string) : is_empty (a ++ b) = is_empty a && is_empty b.
Proof. destruct a; reflexivity. Qed.

(** Stripping on the right leaves a text alone when none of its characters
    is stripped. *)
Lemma rstrip_nl_plain (s : string) :
  no_newline s = true -> rstrip_by (Ascii.eqb nl) s = s.
Proof.
  induction s as [|d s IH]; cbn [rstrip_by no_newline]; [reflexivity|].
  intros H. apply andb_prop in H as [Hd Hs]. rewrite (IH Hs).
  rewrite (Ascii.eqb_sym nl d). destruct (Ascii.eqb d nl); [discriminate|reflexivity].
Qed.

Lemma rstrip_app_keep (p : ascii -> bool) (a b : string) :
  is_empty (rstrip_by p b) = false -> rstrip_by p (a ++ b) = a ++ rstrip_by p b.
Proof.
  intros Hb. induction a as [|d a IH]; simpl; [reflexivity|].
  rewrite IH, is_empty_app, Hb, !andb_false_r. reflexivity.
Qed.

Lemma rstrip_app_drop (p : ascii -> bool) (a b : string) :
  is_empty (rstrip_by p b) = true -> rstrip_by p (a ++ b) = rstrip_by p a.
Proof.
  intros Hb. induction a as [|d a IH].
  - change (rstrip_by p b = EmptyString).
    destruct (rstrip_by p b); [reflexivity|discriminate].
  - change (rstrip_by p (String d (a ++ b)) = rstrip_by p (String d a)).
    cbn [rstrip_by]. now rewrite IH.
Qed.

Lemma lstrip_nl_keep (l t : string) :
  is_empty l = false -> no_newline l = true ->
  lstrip_by (Ascii.eqb nl) (l ++ t) = l ++ t.
Proof.
  destruct l as [|d l]; [discriminate|]. intros _ H.
  cbn [no_newline] in H. apply andb_prop in H as [Hd _].
  change (String d l ++ t) with (String d (l ++ t)). cbn [lstrip_by].
  rewrite (Ascii.eqb_sym nl d). destruct (Ascii.eqb d nl); [discriminate|reflexivity].
Qed.

Lemma last_char_app (a b : string) :
  is_empty b = false -> last_char (a ++ b) = last_char b.
Proof.
  intros Hb. induction a as [|d a IH]; [reflexivity|].
  change (String d a ++ b) with (String d (a ++ b)). cbn [last_char].
  destruct (a ++ b) eqn:E; [|exact IH].
  destruct a; [|discriminate]. change (b = EmptyString) in E.
  rewrite E in Hb. discriminate.
Qed.

Lemma last_char_plain (s : string) : no_newline s = true -> last_char s <> Some nl.
Proof.
  induction s as [|d s IH]; [discriminate|].
  cbn [no_newline]. intros H. apply andb_prop in H as [Hd Hs].
  destruct s as [|e s]; [|exact (IH Hs)].
  cbn [last_char]. intros [= ->]. rewrite Ascii.eqb_refl in Hd. discriminate.
Qed.

(** *** The renderer keeps plain rows on one line *)

Lemma double_quotes_plain (s : string) :
  no_newline s = true -> no_newline (double_quotes s) = true.
Proof.
  induction s as [|d s IH]; [reflexivity|].
  cbn [no_newline double_quotes]. intros H. apply andb_prop in H as [Hd Hs].
  destruct (Ascii.eqb d quote); cbn [no_newline]; rewrite (IH Hs); [reflexivity|].
  now rewrite Hd.
Qed.

Lemma render_field_plain (sep : ascii) (v : option string) :
  plain_value v = true -> no_newline (render_field sep v) = true.
Proof.
  destruct v as [s|]; [|reflexivity]. cbn [plain_value render_field]. intros H.
  destruct (needs_quote sep s); [|exact H].
  cbn [no_newline]. rewrite no_newline_app, (double_quotes_plain s H). reflexivity.
Qed.

Lemma join_plain (sep : ascii) (parts : list string) :
  Ascii.eqb sep nl = false -> forallb no_newline parts = true ->
  no_newline (join (String sep EmptyString) parts) = true.
Proof.
  intros Hsep. induction parts as [|p ps IH]; [reflexivity|].
  cbn [forallb]. intros H. apply andb_prop in H as [Hp Hps].
  destruct ps as [|q ps]; [exact Hp|].
  change (join (String sep EmptyString) (p :: q :: ps))
    with (p ++ String sep EmptyString ++ join (String sep EmptyString) (q :: ps)).
  rewrite !no_newline_app, Hp, (IH Hps). cbn [no_newline]. now rewrite Hsep.
Qed.

Lemma render_row_plain (sep : ascii) (r : Row) :
  Ascii.eqb sep nl = false -> plain_row r = true ->
  no_newline (render_row sep r) = true /\ is_empty (render_row sep r) = false.
Proof.
  intros Hsep H. unfold plain_row in H. apply andb_prop in H as [Hlen Hall].
  destruct r as [|v r]; [discriminate|].
  assert (Hj : no_newline (join (String sep EmptyString)
                             (List.map (render_field sep) (v :: r))) = true).
  { apply join_plain; [exact Hsep|].
    rewrite forallb_forall in *. intros x Hx.
    apply in_map_iff in Hx as [y [<- Hy]]. apply render_field_plain, Hall, Hy. }
  unfold render_row.
  destruct (is_empty _) eqn:E; [split; reflexivity|split; [exact Hj|exact E]].
Qed.

(** *** One batch: [to_csv] and the strip *)

Lemma rstrip_to_csv (sep : ascii) (r : Row) (rs : list Row) :
  Ascii.eqb sep nl = false -> forallb plain_row (r :: rs) = true ->
  let out := rstrip_by (Ascii.eqb nl) (to_csv sep (r :: rs)) in
  newlines out + 1 = List.length (r :: rs)
  /\ is_empty out = false
  /\ last_char out <> Some nl.
Proof.
  intros Hsep. revert r. induction rs as [|r' rs IH]; intros r H;
    cbn [forallb] in H; apply andb_prop in H as [Hr Hrs];
    destruct (render_row_plain sep r Hsep Hr) as [Hnl Hne]; cbn zeta.
  - change (to_csv sep [r]) with (render_row sep r ++ LF).
    rewrite rstrip_app_drop by reflexivity.
    rewrite (rstrip_nl_plain _ Hnl). unfold newlines.
    rewrite (no_newline_count _ Hnl). repeat split; [exact Hne|].
    apply last_char_plain, Hnl.
  - destruct (IH r' Hrs) as (Hc & He & Hl). cbn zeta in Hc, He, Hl.
    change (to_csv sep (r :: r' :: rs))
      with (render_row sep r ++ LF ++ to_csv sep (r' :: rs)).
    assert (Hk : rstrip_by (Ascii.eqb nl) (LF ++ to_csv sep (r' :: rs))
                 = LF ++ rstrip_by (Ascii.eqb nl) (to_csv sep (r' :: rs)))
      by (apply rstrip_app_keep, He).
    rewrite rstrip_app_keep; rewrite Hk; [|reflexivity].
    unfold newlines in *. rewrite !count_app, (no_newline_count _ Hnl).
    repeat split.
    + cbn [List.length] in *. change (count nl LF) with 1. lia.
    + now rewrite is_empty_app, Hne.
    + rewrite last_char_app by reflexivity.
      rewrite last_char_app by exact He. exact Hl.
Qed.

Lemma strip_to_csv (sep : ascii) (b : list Row) :
  Ascii.eqb sep nl = false -> plain_batch b = true ->
  newlines (strip_nl (to_csv sep b)) + 1 = List.length b
  /\ is_empty (strip_nl (to_csv sep b)) = false
  /\ last_char (strip_nl (to_csv sep b)) <> Some nl.
Proof.
  intros Hsep H. unfold plain_batch in H. apply andb_prop in H as [Hlen Hall].
  destruct b as [|r rs]; [discriminate|].
  assert (Hr : plain_row r = true) by (cbn [forallb] in Hall; now apply andb_prop in Hall).
  destruct (render_row_plain sep r Hsep Hr) as [Hnl Hne].
  unfold strip_nl, strip_by.
  change (to_csv sep (r :: rs)) with (render_row sep r ++ LF ++ to_csv sep rs).
  rewrite (lstrip_nl_keep _ _ Hne Hnl).
  exact (rstrip_to_csv sep r rs Hsep Hall).
Qed.

(** *** The loop over the batches *)

Lemma append_assoc3 (a b c : string) : (a ++ b) ++ c = a ++ b ++ c.
Proof.
  induction a as [|d a IH]; [reflexivity|].
  change (String d ((a ++ b) ++ c) = String d (a ++ b ++ c)). now rewrite IH.
Qed.

Lemma write_batches_rest (sep : ascii) (bs : list (list Row)) (w : string) :
  write_batches sep bs w false
  = match bs with
    | [] => w
    | _ :: _ => w ++ LF ++ join LF (List.map (stripped sep) bs)
    end.
Proof.
  revert w. induction bs as [|b bs IH]; intros w; [reflexivity|].
  cbn [write_batches negb]. rewrite IH. fold (stripped sep b).
  destruct bs as [|b' bs]; [now rewrite append_assoc3|].
  change (join LF (List.map (stripped sep) (b :: b' :: bs)))
    with (stripped sep b ++ LF ++ join LF (List.map (stripped sep) (b' :: bs))).
  now rewrite !append_assoc3.
Qed.

Lemma write_batches_join (sep : ascii) (bs : list (list Row)) :
  write_batches sep bs EmptyString true = join LF (List.map (stripped sep) bs).
Proof.
  destruct bs as [|b bs]; [reflexivity|].
  cbn [write_batches negb]. rewrite write_batches_rest. fold (stripped sep b).
  destruct bs; reflexivity.
Qed.

Lemma total_row_count_cons (b : list Row) (bs : list (list Row)) :
  total_row_count (b :: bs) = List.length b + total_row_count bs.
Proof. unfold total_row_count. cbn [List.concat]. now rewrite List.length_app. Qed.

Lemma join_stripped (sep : ascii) (b : list Row) (bs : list (list Row)) :
  Ascii.eqb sep nl = false -> forallb plain_batch (b :: bs) = true ->
  let out := join LF (List.map (stripped sep) (b :: bs)) in
  newlines out + 1 = total_row_count (b :: bs)
  /\ is_empty out = false
  /\ last_char out <> Some nl.
Proof.
  intros Hsep. revert b. induction bs as [|b' bs IH]; intros b H;
    cbn [forallb] in H; apply andb_prop in H as [Hb Hbs];
    destruct (strip_to_csv sep b Hsep Hb) as (Hc & He & Hl);
    fold (stripped sep b) in Hc, He, Hl; cbn zeta; rewrite total_row_count_cons.
  - cbn [List.map join]. unfold total_row_count. cbn [List.concat List.length].
    repeat split; [lia|exact He|exact Hl].
  - destruct (IH b' Hbs) as (Hc' & He' & Hl'). cbn zeta in Hc', He', Hl'.
    change (join LF (List.map (stripped sep) (b :: b' :: bs)))
      with (stripped sep b ++ LF ++ join LF (List.map (stripped sep) (b' :: bs))).
    unfold newlines in *. rewrite !count_app. change (count nl LF) with 1.
    repeat split.
    + lia.
    + now rewrite is_empty_app, He.
    + rewrite last_char_app by reflexivity.
      rewrite last_char_app by exact He'. exact Hl'.
Qed.

Lemma export_sep_not_nl (file_type : string) (sep : ascii) :
  export_sep file_type = Ok sep -> Ascii.eqb sep nl = false.
Proof.
  unfold export_sep.
  destruct (String.eqb file_type "tbl"); [intros [= <-]; reflexivity|].
  destruct (String.eqb file_type "csv"); [intros [= <-]; reflexivity|].
  destruct (String.eqb file_type "txt"); [intros [= <-]; reflexivity|discriminate].
Qed.

(** C5 (as amended): for a container of at least one batch, every batch
    holding at least one row and no value holding a line break, the text the
    exporter writes is the batches' stripped renderings joined by single
    newlines, it holds exactly [total_row_count - 1] newline characters, and
    it does not end with a newline, however the rows are cut into
    batches. *)
Theorem export_newline_discipline (file_type : string) (sep : ascii)
    (batches : list (list Row)) :
  export_sep file_type = Ok sep ->
  batches <> [] ->
  forallb plain_batch batches = true ->
  let out := write_batches sep batches EmptyString true in
  out = join LF (List.map (fun b => strip_nl (to_csv sep b)) batches)
  /\ newlines out + 1 = total_row_count batches
  /\ last_char out <> Some nl.
Proof.
  intros Hs Hne Hall. apply export_sep_not_nl in Hs.
  destruct batches as [|b bs]; [contradiction|]. cbn zeta.
  rewrite write_batches_join. split; [reflexivity|].
  destruct (join_stripped sep b bs Hs Hall) as (Hc & _ & Hl). split; assumption.
Qed.

Lemma export_newline_discipline_witness :
  let batches := [[[Some "1"; Some "a"]; [Some "2"; None]]; [[Some "3"; Some "c"]]] in
  let out := write_batches "|"%char batches EmptyString true in
  out = join LF (List.map (fun b => strip_nl (to_csv "|"%char b)) batches)
  /\ newlines out + 1 = total_row_count batches
  /\ last_char out <> Some nl.
Proof.
  apply (export_newline_discipline "tbl" "|"%char); [reflexivity|discriminate|reflexivity].
Defined.

(** C5 as stated fails on a container whose only row holds a value with a
    line break in it: one row, and one newline in the output. *)
Lemma export_newlines_counterexample :
  let batches := [[[Some ("a" ++ LF ++ "b")]]] in
  let out := write_batches "|"%char batches EmptyString true in
  Z.of_nat (newlines out) <> (Z.of_nat (total_row_count batches) - 1)%Z.
Proof. vm_compute. discriminate. Qed.
End ExportFacts.

Module CodecFacts.
Import PyStr ZstdCompressor CompressionStats.

Section Codec.
Variable zstd_compress : list string -> string.
Variable zstd_reads : string -> N -> list (result string).

Lemma compress_stream_empty (chunk_size : N) (fs : FS) (input_file output_file : string) :
  fs !! input_file = Some EmptyString -> input_file <> output_file ->
  compress_stream zstd_compress chunk_size fs input_file output_file
  = Some (<[output_file := zstd_compress []]> (<[output_file := EmptyString]> fs),
          0, String.length (zstd_compress [])).
Proof.
  intros Hin Hne. unfold compress_stream, getsize. rewrite Hin.
  rewrite !lookup_insert_ne by congruence. rewrite Hin.
  rewrite lookup_insert_eq. reflexivity.
Qed.

(** C10: on a zero-byte input file (other than the output file) both
    variants of [compress_with_zstd] raise [ZeroDivisionError], and by then
    the archive file exists on disk; the variant of [main.py] has by then
    also added the file to the global statistics. *)
Theorem compress_empty_input_not_atomic (w : Main.World) (input_file output_file : string) :
  Main.w_fs w !! input_file = Some EmptyString -> input_file <> output_file ->
  let fs' := <[output_file := zstd_compress []]>
               (<[output_file := EmptyString]> (Main.w_fs w)) in
  compress_with_zstd zstd_compress (Main.w_fs w) input_file output_file
  = ([(ERROR, CompressFailed input_file output_file ZeroDivisionError)],
     fs', Raise ZeroDivisionError)
  /\ fs' !! output_file = Some (zstd_compress [])
  /\ Main.compress_with_zstd zstd_compress w input_file output_file
     = ({| Main.w_fs := fs';
           Main.w_stats :=
             {| total_original := total_original (Main.w_stats w);
                total_compressed := total_compressed (Main.w_stats w)
                                    + String.length (zstd_compress []);
                file_count := file_count (Main.w_stats w) + 1 |};
           Main.w_log := (Main.w_log w ++
             [(ERROR, CompressFailed input_file output_file ZeroDivisionError)])%list |},
        Raise ZeroDivisionError).
Proof.
  intros Hin Hne. cbn zeta.
  unfold compress_with_zstd, Main.compress_with_zstd.
  rewrite (compress_stream_empty _ _ _ _ Hin Hne). cbn [Nat.eqb].
  split; [reflexivity|]. split; [apply lookup_insert_eq|].
  unfold Main.with_log, Main.with_stats, Main.with_fs, update_compression_stats.
  cbn [Main.w_fs Main.w_stats Main.w_log]. rewrite Nat.add_0_r. reflexivity.
Qed.


(** When the stream reader raises, the call logs and raises again, and the
    output file keeps the bytes decompressed before the failure. *)
Lemma decompress_with_zstd_failure (fs : FS)
    (compressed_file output_file archive partial : string) (e : exn) :
  fs !! compressed_file = Some archive ->
  compressed_file <> output_file ->
  drain (zstd_reads archive (4096 * 1024)%N) EmptyString = (partial, Raise e) ->
  let fs' := <[output_file := partial]> (<[output_file := EmptyString]> fs) in
  decompress_with_zstd zstd_reads fs compressed_file output_file
  = ([(ERROR, DecompressFailed compressed_file e)], fs', Raise e)
  /\ fs' !! output_file = Some partial
  /\ fs' !! compressed_file = Some archive.
Proof.
  intros Hin Hne Hd. cbn zeta. unfold decompress_with_zstd. rewrite Hin.
  rewrite lookup_insert_ne by congruence. rewrite Hin. cbn [from_option id].
  rewrite Hd. split; [reflexivity|]. split; [apply lookup_insert_eq|].
  now rewrite !lookup_insert_ne by congruence.
Qed.

End Codec.

Lemma compress_empty_input_not_atomic_witness :
  let w := Samples.empty_container_world in
  let fs' := <[ "compress/e.zstd" := Samples.zstd_compress []]>
               (<[ "compress/e.zstd" := EmptyString]> (Main.w_fs w)) in
  compress_with_zstd Samples.zstd_compress (Main.w_fs w)
    "compress/e.parquet" "compress/e.zstd"
  = ([(ERROR, CompressFailed "compress/e.parquet" "compress/e.zstd" ZeroDivisionError)],
     fs', Raise ZeroDivisionError)
  /\ fs' !! "compress/e.zstd" = Some (Samples.zstd_compress [])
  /\ Main.compress_with_zstd Samples.zstd_compress w "compress/e.parquet" "compress/e.zstd"
     = ({| Main.w_fs := fs';
           Main.w_stats :=
             {| total_original := 0;
                total_compressed := 0 + String.length (Samples.zstd_compress []);
                file_count := 0 + 1 |};
           Main.w_log :=
             [(ERROR, CompressFailed "compress/e.parquet" "compress/e.zstd"
                        ZeroDivisionError)] |},
        Raise ZeroDivisionError).
Proof.
  apply (compress_empty_input_not_atomic Samples.zstd_compress Samples.empty_container_world
           "compress/e.parquet" "compress/e.zstd"); [reflexivity|discriminate].
Defined.

(** C6 as stated fails on an archive cut in half: the stream reader ends
    without raising, so the decompression does not fail, and the output
    file it created is on disk. *)
Lemma decompress_leaves_partial_output_counterexample :
  match decompress_with_zstd Samples.end_of_source_reads
          (Main.w_fs Samples.half_archive_world)
          "compress/customer.zstd" "compress/customer.parquet" with
  | (_, fs', r) => r = Ok tt /\ fs' !! "compress/customer.parquet" <> None
  end.
Proof. vm_compute. split; [reflexivity|discriminate]. Qed.
End CodecFacts.

Module ConverterFacts.
Import PyStr ParquetConverter.

Section Converter.
Variable pandas_json : DataFrame -> string.

Lemma write_table_schema (w w' : ParquetFile) (chunk : DataFrame) :
  write_table pandas_json w chunk = Ok w' -> pq_schema w' = pq_schema w.
Proof.
  unfold write_table. destruct (fields_eqb _ _); [|discriminate].
  intros [= <-]. reflexivity.
Qed.

Lemma write_rest_schema (it : list (result DataFrame)) (w w' : ParquetFile)
    (lg lg' : log) (r : result unit) :
  write_rest pandas_json it w lg = (lg', w', r) -> pq_schema w' = pq_schema w.
Proof.
  revert w lg. induction it as [|[chunk|e] it IH]; intros w lg; cbn [write_rest].
  - intros [= _ <- _]. reflexivity.
  - destruct (write_table pandas_json w (rename_columns chunk)) as [w1|e] eqn:E.
    + intros H. rewrite (IH _ _ H). exact (write_table_schema _ _ _ E).
    + intros [= _ <- _]. reflexivity.
  - intros [= _ <- _]. reflexivity.
Qed.

(** Whatever the conversion leaves on disk carries the schema built from
    the renamed first chunk. *)
Lemma convert_body_schema (it : list (result DataFrame)) (file_type : string)
    (lg : log) (pf : ParquetFile) (r : result unit) :
  convert_body pandas_json it file_type = (lg, Some pf, r) ->
  exists first_chunk,
    pq_schema pf = schema_from_pandas pandas_json (rename_columns first_chunk).
Proof.
  unfold convert_body. destruct it as [|[first_chunk|e] rest]; try discriminate.
  destruct (annotate_strings _ _); [|discriminate].
  destruct (write_table _ _ _) as [w|e] eqn:Ew.
  - destruct (write_rest _ _ _ _) as [[lg' w'] [[]|e]] eqn:Er;
      intros [= _ <- _]; exists first_chunk; cbn [pq_schema finalize];
      rewrite (write_rest_schema _ _ _ _ _ _ Er), (write_table_schema _ _ _ Ew);
      reflexivity.
  - intros [= _ <- _]. exists first_chunk. reflexivity.
Qed.

(** C2 (code as written): whatever extension the container is written for,
    its schema metadata holds no [original_extension] key, because the
    schema given to the writer is built anew from the renamed first chunk;
    the reverse pipeline therefore reads back the default, [tbl]. *)
Theorem original_extension_not_stored (chunk_iterator : list (result DataFrame))
    (output_file file_type : string) (lg : log) (pf : ParquetFile) (r : result unit) :
  convert_to_columnar_in_chunks pandas_json chunk_iterator output_file file_type
  = (lg, Some pf, r) ->
  s_metadata (pq_schema pf) !! "original_extension" = None
  /\ Main.read_original_extension pf = Ok "tbl".
Proof.
  unfold convert_to_columnar_in_chunks.
  destruct (convert_body pandas_json chunk_iterator file_type) as [[lg0 d] r0] eqn:E.
  intros H.
  assert (Hd : d = Some pf) by (destruct r0; injection H as _ ? _; assumption).
  subst d. destruct (convert_body_schema _ _ _ _ _ E) as [fc Hs].
  assert (Hl : s_metadata (pq_schema pf) !! "original_extension" = None).
  { rewrite Hs. cbn [schema_from_pandas s_metadata].
    apply lookup_singleton_ne. discriminate. }
  split; [exact Hl|].
  unfold Main.read_original_extension. rewrite Hl.
  destruct (decide (s_metadata (pq_schema pf) = ∅)) as [He|_]; [|reflexivity].
  rewrite Hs in He. cbn [schema_from_pandas s_metadata] in He.
  exfalso. exact (map_non_empty_singleton _ _ He).
Qed.

End Converter.

Lemma original_extension_not_stored_witness :
  let pf := {| pq_schema := schema_from_pandas Samples.pandas_json
                              (Samples.chunk [[Some "1"; Some "2"]]);
               pq_row_groups := [[[Some "1"; Some "2"]]];
               pq_closed := true |} in
  s_metadata (pq_schema pf) !! "original_extension" = None
  /\ Main.read_original_extension pf = Ok "tbl".
Proof.
  apply (original_extension_not_stored Samples.pandas_json
           [Ok (Samples.chunk [[Some "1"; Some "2"]])] "compress/t.parquet" "csv"
           [(INFO, SchemaInitialised); (INFO, ColumnarWritten "compress/t.parquet")]
           _ (Ok tt)).
  reflexivity.
Defined.
End ConverterFacts.

Module MainFacts.
Import PyStr OsPath ParquetConverter CompressionStats Main.

Lemma append_cancel_l (a b c : string) : a ++ b = a ++ c -> b = c.
Proof.
  induction a as [|d a IH]; [exact (fun H => H)|].
  change (String d (a ++ b) = String d (a ++ c) -> b = c).
  intros [= H]. exact (IH H).
Qed.

Lemma startswith_app (c : ascii) (a b b' : string) :
  startswith c b = startswith c b' -> startswith c (a ++ b) = startswith c (a ++ b').
Proof. destruct a; [exact (fun H => H)|reflexivity]. Qed.

Lemma join_cancel (a b b' : string) :
  startswith "/"%char b = startswith "/"%char b' -> join a b = join a b' -> b = b'.
Proof.
  unfold join. intros <-. destruct (startswith "/"%char b); [exact (fun H => H)|].
  destruct (is_empty a || endswith "/" a); [apply append_cancel_l|].
  intros H. apply append_cancel_l in H. exact (append_cancel_l _ _ _ H).
Qed.

(** The intermediate container and the archive never share a path. *)
Lemma temp_parquet_not_archive (file_name : string) :
  temp_parquet_of file_name <> compressed_file_of file_name.
Proof.
  unfold temp_parquet_of, compressed_file_of. intros H.
  apply join_cancel in H; [|now apply startswith_app].
  apply append_cancel_l in H. discriminate.
Qed.

Lemma with_log_app (w : World) (a b : log) :
  with_log (with_log w a) b = with_log w (a ++ b)%list.
Proof. unfold with_log. cbn. now rewrite <- List.app_assoc. Qed.

(** C8 (code as written): the archive is named after the base name alone,
    [<basename>.zstd]; the extension of the input file is not part of the
    name, so two inputs that differ only in their extension share one
    archive path. *)
Theorem archive_name_drops_extension :
  compressed_file_of "customer.tbl" = "compress/customer.zstd"
  /\ compressed_file_of "orders.csv" = "compress/orders.zstd"
  /\ compressed_file_of "notes.txt" = "compress/notes.zstd"
  /\ compressed_file_of "customer.tbl" <> "compress/customer.tbl.zstd"
  /\ compressed_file_of "customer.tbl" = compressed_file_of "customer.csv".
Proof. vm_compute. repeat split; discriminate. Qed.

Section Pipeline.
Variable set_order : list nat -> list nat.
Variable pandas_json : DataFrame -> string.
Variable pandas_chunks : DataReader.ReaderConfig -> string -> list (result DataFrame).
Variable pq_bytes : ParquetFile -> string.
Variable pq_open : string -> option ParquetFile.
Variable iter_batches : N -> ParquetFile -> list (list Row).
Variable zstd_compress : list string -> string.
Variable zstd_reads : string -> N -> list (result string).

(** C1 (code as written): for the comma-separated sample stored as a
    [csv] file the forward pipeline stops in schema inference: the file
    system is left as it was, no container and no archive are written, and
    there is nothing to export. *)
Theorem csv_file_is_never_columnarized (w : World) :
  w_fs w !! "data/t.csv" = Some Samples.csv_text ->
  Main.compress_file set_order pandas_json pandas_chunks pq_bytes zstd_compress w "t.csv"
  = with_log w [(INFO, ProcessingFile "t.csv");
                (ERROR, ParseFailed "data/t.csv" (UnboundLocalError "num_columns"));
                (ERROR, FileFailed "t.csv" (UnboundLocalError "num_columns"))].
Proof.
  intros Hf. unfold Main.compress_file.
  change (is_data_file "t.csv") with true. cbv iota.
  unfold compress_steps.
  change (join data_dir "t.csv") with "data/t.csv".
  change (file_type_of "t.csv") with "csv".
  unfold DataReader.read_file_data_in_chunks.
  change (DataReader.type_hint "csv") with (Ok (","%char, dquote, "\"%char)).
  cbv iota beta. cbn [with_log w_fs]. rewrite Hf.
  change (DataReader.infer set_order "data/t.csv" (universal_newlines Samples.csv_text))
    with (@nil log_record, @Ok (ascii * option nat) (","%char, None)).
  cbv iota beta. rewrite !with_log_app. reflexivity.
Qed.


Lemma compress_stream_copies (chunk_size : N) (fs : gmap string string)
    (input_file output_file bytes : string) :
  fs !! input_file = Some bytes -> input_file <> output_file ->
  let archive :=
    zstd_compress (ZstdCompressor.read_chunks (S (String.length bytes)) chunk_size bytes) in
  ZstdCompressor.compress_stream zstd_compress chunk_size fs input_file output_file
  = Some (<[output_file := archive]> (<[output_file := EmptyString]> fs),
          String.length bytes, String.length archive).
Proof.
  intros Hin Hne. cbn zeta. unfold ZstdCompressor.compress_stream, ZstdCompressor.getsize.
  rewrite Hin. rewrite !lookup_insert_ne by congruence. rewrite Hin.
  rewrite lookup_insert_eq. reflexivity.
Qed.

Lemma length_non_empty (s : string) : s <> EmptyString -> Nat.eqb (String.length s) 0 = false.
Proof. destruct s; [contradiction|reflexivity]. Qed.

(** C7 (code as written): when the conversion of a file fails after the
    container has been created, [main.py] logs the error without the name
    of the file and goes on: the partial container is compressed, the
    archive is written, the statistics count the file, and the log reports
    the file as compressed. *)
Theorem conversion_error_is_swallowed (w : World) (file_name : string)
    (cfg : DataReader.ReaderConfig) (lg1 lg2 : log) (pf : ParquetFile) (e : exn) :
  is_data_file file_name = true ->
  DataReader.read_file_data_in_chunks set_order (w_fs w)
    (join data_dir file_name) (file_type_of file_name) = (lg1, Ok cfg) ->
  convert_body pandas_json
    (pandas_chunks cfg (default EmptyString (w_fs w !! join data_dir file_name)))
    (file_type_of file_name) = (lg2, Some pf, Raise e) ->
  pq_bytes pf <> EmptyString ->
  let archive :=
    zstd_compress (ZstdCompressor.read_chunks (S (String.length (pq_bytes pf)))
                     (4096000 * 1024)%N (pq_bytes pf)) in
  let w' := Main.compress_file set_order pandas_json pandas_chunks pq_bytes
              zstd_compress w file_name in
  w_log w'
  = (w_log w ++ [(INFO, ProcessingFile file_name)] ++ lg1 ++ lg2 ++
       [(ERROR, ColumnarFailed e);
        (INFO, CompressDone (String.length (pq_bytes pf)));
        (INFO, FileCompressed (compressed_file_of file_name));
        (INFO, FileTime file_name)])%list
  /\ w_fs w' !! compressed_file_of file_name = Some archive
  /\ w_stats w'
     = update_compression_stats (w_stats w)
         (String.length (pq_bytes pf)) (String.length archive).
Proof.
  intros Hd Hr Hc Hb. cbn zeta.
  pose proof (temp_parquet_not_archive file_name) as Hne.
  unfold Main.compress_file. rewrite Hd.
  unfold compress_steps. cbn [with_log w_fs]. rewrite Hr.
  unfold Main.convert_to_columnar_in_chunks. cbn [with_log w_fs]. rewrite Hc.
  unfold Main.compress_with_zstd, store. cbn [with_log with_fs w_fs].
  rewrite (compress_stream_copies _ _ _ _ (pq_bytes pf)
             (lookup_insert_eq _ _ _) Hne).
  cbn [with_log with_fs with_stats w_fs w_stats w_log].
  rewrite (length_non_empty _ Hb).
  unfold remove. cbn [with_log with_fs with_stats w_fs w_stats w_log].
  rewrite !lookup_insert_ne by (apply not_eq_sym, Hne).
  rewrite lookup_insert_eq.
  cbn [with_log with_fs with_stats w_fs w_stats w_log].
  split; [|split].
  - rewrite <- !List.app_assoc. reflexivity.
  - rewrite lookup_delete_ne by exact Hne. apply lookup_insert_eq.
  - reflexivity.
Qed.


(** C6 (as amended): on an archive cut in half the stream reader ends
    without raising and what it decoded is no container.  Then
    [decompress_with_zstd] does not fail: it logs success and leaves the
    decoded bytes at its output path.  The failure comes when the
    orchestrator opens that file as a container: it is logged with the
    archive's name, no text file is written, the statistics are not
    touched, and the partial container file stays on disk. *)
Theorem truncated_archive_leaves_container (w : World)
    (compressed_file_name archive partial : string) :
  let compressed_file_path := join compress_dir compressed_file_name in
  let decompressed_parquet :=
    join compress_dir
      (fst (splitext (fst (splitext compressed_file_name))) ++ ".parquet") in
  endswith ".zstd" compressed_file_name = true ->
  w_fs w !! compressed_file_path = Some archive ->
  compressed_file_path <> decompressed_parquet ->
  ZstdCompressor.drain (zstd_reads archive (4096 * 1024)%N) EmptyString
  = (partial, Ok tt) ->
  pq_open partial = None ->
  let fs' := <[decompressed_parquet := partial]>
               (<[decompressed_parquet := EmptyString]> (w_fs w)) in
  ZstdCompressor.decompress_with_zstd zstd_reads (w_fs w)
    compressed_file_path decompressed_parquet
  = ([(INFO, DecompressDone compressed_file_path decompressed_parquet)], fs', Ok tt)
  /\ fs' !! decompressed_parquet = Some partial
  /\ Main.decompress_file pq_open iter_batches zstd_reads w compressed_file_name
     = {| w_fs := fs'; w_stats := w_stats w;
          w_log := (w_log w ++
                    [(INFO, DecompressDone compressed_file_path decompressed_parquet);
                     (ERROR, FileDecompressFailed compressed_file_name ArrowInvalid)])%list |}.
Proof.
  cbn zeta. intros Hz Hin Hne Hd Ho.
  assert (Hf : ZstdCompressor.decompress_with_zstd zstd_reads (w_fs w)
                 (join compress_dir compressed_file_name)
                 (join compress_dir
                    (fst (splitext (fst (splitext compressed_file_name))) ++ ".parquet"))
               = ([(INFO, DecompressDone (join compress_dir compressed_file_name)
                           (join compress_dir
                              (fst (splitext (fst (splitext compressed_file_name)))
                               ++ ".parquet")))],
                  <[join compress_dir
                      (fst (splitext (fst (splitext compressed_file_name))) ++ ".parquet")
                    := partial]>
                    (<[join compress_dir
                         (fst (splitext (fst (splitext compressed_file_name)))
                          ++ ".parquet") := EmptyString]> (w_fs w)),
                  Ok tt)).
  { unfold ZstdCompressor.decompress_with_zstd. rewrite Hin.
    rewrite lookup_insert_ne by congruence. rewrite Hin. cbn [from_option id].
    now rewrite Hd. }
  split; [exact Hf|]. split; [apply lookup_insert_eq|].
  unfold decompress_file. rewrite Hz. unfold decompress_steps. rewrite Hf.
  unfold open_container, with_log, with_fs. cbn [w_fs w_stats w_log].
  rewrite lookup_insert_eq, Ho. cbn [w_fs w_stats w_log].
  rewrite <- List.app_assoc. reflexivity.
Qed.

End Pipeline.

(** The pipe-separated sample goes through the forward pipeline when the
    reader and the writer raise nothing: the archive is written under the
    base name, the intermediate container is removed and the statistics
    count one file. *)
Example compressmain_tbl_sample :
  let w' := Main.compressmain Samples.set_order Samples.pandas_json Samples.good_chunks
              Samples.pq_bytes Samples.zstd_compress ["t.tbl"; "readme.md"]
              Samples.tbl_world in
  w_fs w' = {[ "data/t.tbl" := Samples.tbl_text; "compress/t.zstd" := "(zstd)PAR1" ]}
  /\ w_stats w' = {| total_original := 4; total_compressed := 10; file_count := 1 |}
  /\ w_log w'
     = [(INFO, ProcessingFile "t.tbl");
        (INFO, SeparatorSwitched "|"%char); (INFO, StableColumns 3);
        (INFO, SchemaInitialised); (INFO, ColumnarWritten "compress/t.parquet");
        (INFO, CompressDone 4);
        (INFO, FileCompressed "compress/t.zstd"); (INFO, FileTime "t.tbl")].
Proof. vm_compute. repeat split. Qed.

Lemma csv_file_is_never_columnarized_witness :
  Main.compress_file Samples.set_order Samples.pandas_json Samples.failing_chunks
    Samples.pq_bytes Samples.zstd_compress Samples.csv_world "t.csv"
  = with_log Samples.csv_world
      [(INFO, ProcessingFile "t.csv");
       (ERROR, ParseFailed "data/t.csv" (UnboundLocalError "num_columns"));
       (ERROR, FileFailed "t.csv" (UnboundLocalError "num_columns"))].
Proof.
  apply (csv_file_is_never_columnarized Samples.set_order Samples.pandas_json
           Samples.failing_chunks Samples.pq_bytes Samples.zstd_compress
           Samples.csv_world).
  reflexivity.
Defined.

Lemma conversion_error_is_swallowed_witness :
  let w' := Main.compress_file Samples.set_order Samples.pandas_json
              Samples.failing_chunks Samples.pq_bytes Samples.zstd_compress
              Samples.tbl_world "t.tbl" in
  w_log w'
  = [(INFO, ProcessingFile "t.tbl");
     (INFO, SeparatorSwitched "|"%char); (INFO, StableColumns 3);
     (INFO, SchemaInitialised);
     (ERROR, ColumnarFailed (OtherError "ParserError"));
     (INFO, CompressDone 4);
     (INFO, FileCompressed "compress/t.zstd");
     (INFO, FileTime "t.tbl")]
  /\ w_fs w' !! "compress/t.zstd" = Some "(zstd)PAR1"
  /\ w_stats w' = {| total_original := 4; total_compressed := 10; file_count := 1 |}.
Proof.
  apply (conversion_error_is_swallowed Samples.set_order Samples.pandas_json
           Samples.failing_chunks Samples.pq_bytes Samples.zstd_compress
           Samples.tbl_world "t.tbl"
           {| DataReader.rc_path := "data/t.tbl"; DataReader.rc_sep := "|"%char;
              DataReader.rc_names := ["col_0"; "col_1"; "col_2"];
              DataReader.rc_quotechar := PyStr.dquote;
              DataReader.rc_escapechar := "\"%char;
              DataReader.rc_chunksize := 50000%N |}
           [(INFO, SeparatorSwitched "|"%char); (INFO, StableColumns 3)]
           [(INFO, SchemaInitialised)]
           {| pq_schema := schema_from_pandas Samples.pandas_json
                             (Samples.chunk [[Some "1"; Some "2"]]);
              pq_row_groups := [[[Some "1"; Some "2"]]];
              pq_closed := true |}
           (OtherError "ParserError"));
    [reflexivity|reflexivity|reflexivity|discriminate].
Defined.

Lemma truncated_archive_leaves_container_witness :
  let fs' := <[ "compress/customer.parquet" := EmptyString ]>
               (<[ "compress/customer.parquet" := EmptyString ]>
                  (w_fs Samples.half_archive_world)) in
  ZstdCompressor.decompress_with_zstd Samples.end_of_source_reads
    (w_fs Samples.half_archive_world)
    "compress/customer.zstd" "compress/customer.parquet"
  = ([(INFO, DecompressDone "compress/customer.zstd" "compress/customer.parquet")],
     fs', Ok tt)
  /\ fs' !! "compress/customer.parquet" = Some EmptyString
  /\ Main.decompress_file Samples.pq_open Samples.iter_batches Samples.end_of_source_reads
       Samples.half_archive_world "customer.zstd"
     = {| w_fs := fs'; w_stats := init_compression_stats;
          w_log := [(INFO, DecompressDone "compress/customer.zstd"
                             "compress/customer.parquet");
                    (ERROR, FileDecompressFailed "customer.zstd" ArrowInvalid)] |}.
Proof.
  apply (truncated_archive_leaves_container Samples.pq_open Samples.iter_batches
           Samples.end_of_source_reads Samples.half_archive_world "customer.zstd"
           Samples.half_archive EmptyString);
    [reflexivity|reflexivity|discriminate|reflexivity|reflexivity].
Defined.
End MainFacts.

(** * Further properties of the code *)

Module StreamFacts.
Import PyStr ZstdCompressor Vocabulary.

Lemma read_splits (n : N) (src chunk rest : string) :
  read n src = (chunk, rest) ->
  src = chunk ++ rest
  /\ (N.of_nat (String.length chunk) <= n)%N
  /\ (is_empty chunk = true -> n = 0%N \/ src = EmptyString).
Proof.
  revert n chunk rest. induction src as [|c s IH]; intros n chunk rest; cbn [read].
  - intros [= <- <-]. split; [reflexivity|]. split; [cbn [String.length]; lia|].
    intros _. now right.
  - destruct (N.eqb_spec n 0) as [->|Hn].
    + intros [= <- <-]. split; [reflexivity|]. split; [cbn [String.length]; lia|].
      intros _. now left.
    + destruct (read (N.pred n) s) as [ch rs] eqn:E. intros [= <- <-].
      destruct (IH _ _ _ E) as (Hs & Hl & _).
      split; [|split].
      * change (String c ch ++ rs) with (String c (ch ++ rs)). now rewrite <- Hs.
      * cbn [String.length]. rewrite Nat2N.inj_succ. lia.
      * discriminate.
Qed.

Lemma length_append (a b : string) :
  String.length (a ++ b) = String.length a + String.length b.
Proof.
  induction a as [|c a IH]; [reflexivity|].
  change (String c a ++ b) with (String c (a ++ b)). cbn [String.length]. now rewrite IH.
Qed.

(** The chunks of the copy loop, put together, are the input. *)
Lemma read_chunks_cat (fuel : nat) (chunk_size : N) (src : string) :
  (0 < chunk_size)%N -> String.length src < fuel ->
  cat (read_chunks fuel chunk_size src) = src.
Proof.
  intros Hn. revert src. induction fuel as [|fuel IH]; intros src Hf; [lia|].
  cbn [read_chunks].
  destruct (read chunk_size src) as [chunk rest] eqn:E.
  destruct (read_splits _ _ _ _ E) as (Hs & _ & He).
  destruct (is_empty chunk) eqn:Ec.
  - destruct (He eq_refl) as [->| ->]; [lia|reflexivity].
  - assert (Hlen : String.length rest < fuel).
    { rewrite Hs, length_append in Hf. destruct chunk; [discriminate|].
      cbn [String.length] in Hf. lia. }
    cbn [cat List.fold_right]. fold (cat (read_chunks fuel chunk_size rest)).
    now rewrite (IH rest Hlen), Hs.
Qed.

Lemma read_chunks_sizes (fuel : nat) (chunk_size : N) (src : string) :
  Forall (fun chunk => non_empty chunk = true
                       /\ (N.of_nat (String.length chunk) <= chunk_size)%N)
    (read_chunks fuel chunk_size src).
Proof.
  revert src. induction fuel as [|fuel IH]; intros src; [constructor|].
  cbn [read_chunks].
  destruct (read chunk_size src) as [chunk rest] eqn:E.
  destruct (read_splits _ _ _ _ E) as (_ & Hl & _).
  destruct (is_empty chunk) eqn:Ec; [constructor|].
  constructor; [|apply IH]. split; [|exact Hl]. unfold non_empty. now rewrite Ec.
Qed.

(** X1: the copy loop hands the whole input to the compressor, in chunks
    that are never empty and never longer than the chunk size; the fuel the
    model gives the loop is enough. *)
Theorem read_chunks_feeds_whole_input (fuel : nat) (chunk_size : N) (src : string) :
  (0 < chunk_size)%N -> String.length src < fuel ->
  let chunks := read_chunks fuel chunk_size src in
  cat chunks = src
  /\ Forall (fun chunk => non_empty chunk = true
                          /\ (N.of_nat (String.length chunk) <= chunk_size)%N) chunks.
Proof.
  intros Hn Hf. cbn zeta. split.
  - exact (read_chunks_cat fuel chunk_size src Hn Hf).
  - exact (read_chunks_sizes fuel chunk_size src).
Qed.

Lemma read_chunks_feeds_whole_input_witness :
  let chunks := read_chunks 7 2%N "PAR1xy" in
  cat chunks = "PAR1xy"
  /\ Forall (fun chunk => non_empty chunk = true
                          /\ (N.of_nat (String.length chunk) <= 2)%N) chunks.
Proof. apply (read_chunks_feeds_whole_input 7 2%N "PAR1xy"); [reflexivity|cbn; lia]. Defined.

(** *** What a call leaves alone *)

Section Codec.
Variable zstd_compress : list string -> string.
Variable zstd_reads : string -> N -> list (result string).

(** X2: however [compress_with_zstd] ends, every data file other than the
    output file is as it was; the log file apart, which receives the
    records.  When the input file is missing no data file is changed, the
    output file is not created, and the error is [FileNotFoundError]. *)
Theorem compress_touches_only_output (fs fs' : FS) (input_file output_file : string)
    (lg : log) (r : result (nat * nat)) :
  compress_with_zstd zstd_compress fs input_file output_file = (lg, fs', r) ->
  (forall path, path <> output_file -> path <> log_file -> fs' !! path = fs !! path)
  /\ (fs !! input_file = None ->
      (forall path, path <> log_file -> fs' !! path = fs !! path)
      /\ r = Raise (FileNotFoundError input_file)).
Proof.
  unfold compress_with_zstd, compress_stream.
  destruct (fs !! input_file) as [bytes|] eqn:Hin.
  - cbn zeta. destruct (Nat.eqb _ 0); intros [= _ <- _]; (split; [|discriminate]);
      intros path Hp _; now rewrite !lookup_insert_ne by congruence.
  - intros [= _ <- <-]. split; [reflexivity|]. intros _. split; reflexivity.
Qed.


Lemma append_empty_r (s : string) : s ++ EmptyString = s.
Proof.
  induction s as [|c s IH]; [reflexivity|].
  change (String c (s ++ EmptyString) = String c s). now rewrite IH.
Qed.

Lemma append_assoc (a b c : string) : (a ++ b) ++ c = a ++ b ++ c.
Proof.
  induction a as [|d a IH]; [reflexivity|].
  change (String d ((a ++ b) ++ c) = String d (a ++ b ++ c)). now rewrite IH.
Qed.

(** The read loop of the decompressor writes the chunks it is given, in
    order, up to the first empty chunk or exception. *)
Lemma drain_until_stop (chunks : list string) (stop : result string)
    (rest : list (result string)) (out : string) :
  Forall (fun chunk => non_empty chunk = true) chunks ->
  (stop = Ok EmptyString \/ exists e, stop = Raise e) ->
  drain (List.map Ok chunks ++ stop :: rest)%list out
  = (out ++ cat chunks,
     match stop with Ok _ => Ok tt | Raise e => Raise e end).
Proof.
  intros Hall Hstop. revert out. induction Hall as [|chunk chunks Hc _ IH]; intros out.
  - cbn [List.map List.app cat List.fold_right]. rewrite append_empty_r.
    destruct Hstop as [->|[e ->]]; reflexivity.
  - cbn [List.map List.app drain]. unfold non_empty in Hc.
    destruct (is_empty chunk); [discriminate|].
    rewrite IH. cbn [cat List.fold_right]. fold (cat chunks).
    now rewrite append_assoc.
Qed.

(** X4: when the stream reader hands out the chunks [chunks] and then
    either the empty chunk or an exception, the output file of
    [decompress_with_zstd] holds exactly the concatenation of [chunks], and
    the call returns normally in the first case and raises the reader's
    exception in the second. *)
Theorem decompress_writes_the_chunks_read (fs : FS)
    (compressed_file output_file archive : string) (chunks : list string)
    (stop : result string) (rest : list (result string)) :
  fs !! compressed_file = Some archive ->
  compressed_file <> output_file ->
  zstd_reads archive (4096 * 1024)%N = (List.map Ok chunks ++ stop :: rest)%list ->
  Forall (fun chunk => non_empty chunk = true) chunks ->
  (stop = Ok EmptyString \/ exists e, stop = Raise e) ->
  match decompress_with_zstd zstd_reads fs compressed_file output_file with
  | (_, fs', r) =>
      fs' !! output_file = Some (cat chunks)
      /\ r = match stop with Ok _ => Ok tt | Raise e => Raise e end
  end.
Proof.
  intros Hin Hne Hreads Hall Hstop. unfold decompress_with_zstd. rewrite Hin.
  rewrite lookup_insert_ne by congruence. rewrite Hin. cbn [from_option id].
  rewrite Hreads, (drain_until_stop _ _ _ _ Hall Hstop).
  change (EmptyString ++ cat chunks) with (cat chunks).
  destruct stop as [s|e]; (split; [apply lookup_insert_eq|reflexivity]).
Qed.

(** X5: compression followed by decompression, over the file system.  For
    a non-empty input file, when the reader run on the archive gives back
    the chunks the writer was given, [compress_with_zstd] returns the byte
    lengths of the input and of the archive and [decompress_with_zstd]
    then leaves the bytes of the input file at the output path. *)
Theorem compress_then_decompress_restores (fs : FS)
    (input_file archive_file output_file bytes : string) :
  fs !! input_file = Some bytes ->
  bytes <> EmptyString ->
  input_file <> archive_file ->
  archive_file <> output_file ->
  let chunks := read_chunks (S (String.length bytes)) (4096000 * 1024)%N bytes in
  drain (zstd_reads (zstd_compress chunks) (4096 * 1024)%N) EmptyString
  = (cat chunks, Ok tt) ->
  match compress_with_zstd zstd_compress fs input_file archive_file with
  | (_, fs1, r1) =>
      r1 = Ok (String.length bytes, String.length (zstd_compress chunks))
      /\ fs1 !! input_file = Some bytes
      /\ match decompress_with_zstd zstd_reads fs1 archive_file output_file with
         | (_, fs2, r2) => r2 = Ok tt /\ fs2 !! output_file = Some bytes
         end
  end.
Proof.
  intros Hin Hb Hia Hao chunks Hcodec.
  assert (Hcat : cat chunks = bytes)
    by (apply read_chunks_cat; [reflexivity|lia]).
  unfold compress_with_zstd, compress_stream, getsize. rewrite Hin.
  rewrite !lookup_insert_ne by congruence. rewrite Hin. cbn [from_option id].
  fold chunks. rewrite lookup_insert_eq. cbn [from_option id].
  destruct bytes as [|c bytes]; [contradiction|]. cbn [String.length Nat.eqb].
  split; [reflexivity|]. split; [rewrite !lookup_insert_ne by congruence; exact Hin|].
  unfold decompress_with_zstd. rewrite lookup_insert_eq.
  rewrite lookup_insert_ne by congruence. rewrite lookup_insert_eq.
  cbn [from_option id]. rewrite Hcodec, Hcat.
  split; [reflexivity|apply lookup_insert_eq].
Qed.


End Codec.

Lemma compress_touches_only_output_witness :
  let fs' := <[ "compress/t.zstd" := "(zstd)PAR1" ]>
               (<[ "compress/t.zstd" := EmptyString ]> MoreSamples.stored_fs) in
  (forall path, path <> "compress/t.zstd" -> path <> log_file ->
                fs' !! path = MoreSamples.stored_fs !! path)
  /\ (MoreSamples.stored_fs !! "compress/t.parquet" = None ->
      (forall path, path <> log_file -> fs' !! path = MoreSamples.stored_fs !! path)
      /\ @Ok (nat * nat) (4, 10) = Raise (FileNotFoundError "compress/t.parquet")).
Proof.
  apply (compress_touches_only_output Samples.zstd_compress MoreSamples.stored_fs _
           "compress/t.parquet" "compress/t.zstd" [(INFO, CompressDone 4)] (Ok (4, 10))).
  reflexivity.
Defined.


Lemma decompress_writes_the_chunks_read_witness :
  match decompress_with_zstd Samples.failing_reads (Main.w_fs Samples.truncated_world)
          "compress/customer.zstd" "compress/customer.parquet" with
  | (_, fs', r) =>
      fs' !! "compress/customer.parquet" = Some (cat ["PAR1"])
      /\ r = Raise ZstdError
  end.
Proof.
  apply (decompress_writes_the_chunks_read Samples.failing_reads
           (Main.w_fs Samples.truncated_world)
           "compress/customer.zstd" "compress/customer.parquet" "(half of an archive)"
           ["PAR1"] (Raise ZstdError) []).
  - reflexivity.
  - discriminate.
  - reflexivity.
  - repeat constructor.
  - right. exists ZstdError. reflexivity.
Defined.

Lemma compress_then_decompress_restores_witness :
  match compress_with_zstd Samples.zstd_compress MoreSamples.stored_fs
          "compress/t.parquet" "compress/t.zstd" with
  | (_, fs1, r1) =>
      r1 = Ok (4, 10)
      /\ fs1 !! "compress/t.parquet" = Some "PAR1"
      /\ match decompress_with_zstd MoreSamples.echo_reads fs1
                 "compress/t.zstd" "compress/back.parquet" with
         | (_, fs2, r2) => r2 = Ok tt /\ fs2 !! "compress/back.parquet" = Some "PAR1"
         end
  end.
Proof.
  apply (compress_then_decompress_restores Samples.zstd_compress MoreSamples.echo_reads
           MoreSamples.stored_fs "compress/t.parquet" "compress/t.zstd"
           "compress/back.parquet" "PAR1");
    [reflexivity|discriminate|discriminate|discriminate|reflexivity].
Defined.
End StreamFacts.

Module BatchingFacts.
Import PyStr ParquetConverter Props.

Lemma join_cons (sep x : string) (y : string) (ys : list string) :
  join sep (x :: y :: ys) = x ++ sep ++ join sep (y :: ys).
Proof. reflexivity. Qed.

Lemma join_app (sep : string) (xs ys : list string) :
  xs <> [] -> ys <> [] ->
  join sep (xs ++ ys) = join sep xs ++ sep ++ join sep ys.
Proof.
  intros Hx Hy. induction xs as [|x xs IH]; [contradiction|].
  destruct xs as [|x' xs].
  - destruct ys as [|y ys]; [contradiction|]. reflexivity.
  - change ((x :: x' :: xs) ++ ys)%list with (x :: x' :: (xs ++ ys))%list.
    rewrite !join_cons.
    change (x' :: (xs ++ ys))%list with ((x' :: xs) ++ ys)%list.
    rewrite IH by discriminate. now rewrite !StreamFacts.append_assoc.
Qed.

Lemma join_rendered_non_empty (sep : ascii) (r : Row) (rs : list Row) :
  Ascii.eqb sep nl = false -> plain_row r = true ->
  is_empty (join LF (List.map (render_row sep) (r :: rs))) = false.
Proof.
  intros Hsep Hr. destruct (ExportFacts.render_row_plain sep r Hsep Hr) as [_ Hne].
  destruct rs as [|r' rs]; [exact Hne|].
  cbn [List.map]. rewrite join_cons. now rewrite ExportFacts.is_empty_app, Hne.
Qed.

Lemma rstrip_join_rendered (sep : ascii) (r : Row) (rs : list Row) :
  Ascii.eqb sep nl = false -> forallb plain_row (r :: rs) = true ->
  rstrip_by (Ascii.eqb nl) (to_csv sep (r :: rs))
  = join LF (List.map (render_row sep) (r :: rs)).
Proof.
  intros Hsep. revert r. induction rs as [|r' rs IH]; intros r H;
    cbn [forallb] in H; apply andb_prop in H as [Hr Hrs];
    destruct (ExportFacts.render_row_plain sep r Hsep Hr) as [Hnl Hne].
  - change (to_csv sep [r]) with (render_row sep r ++ LF).
    rewrite ExportFacts.rstrip_app_drop by reflexivity.
    exact (ExportFacts.rstrip_nl_plain _ Hnl).
  - assert (Hr' : plain_row r' = true)
      by (cbn [forallb] in Hrs; now apply andb_prop in Hrs).
    change (to_csv sep (r :: r' :: rs))
      with (render_row sep r ++ LF ++ to_csv sep (r' :: rs)).
    pose proof (join_rendered_non_empty sep r' rs Hsep Hr') as Hne'.
    rewrite <- (IH r' Hrs) in Hne'.
    assert (Hk : rstrip_by (Ascii.eqb nl) (LF ++ to_csv sep (r' :: rs))
                 = LF ++ rstrip_by (Ascii.eqb nl) (to_csv sep (r' :: rs)))
      by (apply ExportFacts.rstrip_app_keep, Hne').
    rewrite ExportFacts.rstrip_app_keep; rewrite Hk; [|reflexivity].
    rewrite (IH r' Hrs). reflexivity.
Qed.

(** What the exporter writes for a batch of plain rows: the rendered rows,
    one newline between two of them. *)
Lemma stripped_is_join (sep : ascii) (b : list Row) :
  Ascii.eqb sep nl = false -> plain_batch b = true ->
  stripped sep b = join LF (List.map (render_row sep) b).
Proof.
  intros Hsep H. unfold plain_batch in H. apply andb_prop in H as [_ Hall].
  destruct b as [|r rs]; [reflexivity|].
  assert (Hr : plain_row r = true) by (cbn [forallb] in Hall; now apply andb_prop in Hall).
  destruct (ExportFacts.render_row_plain sep r Hsep Hr) as [Hnl Hne].
  unfold stripped, strip_nl, strip_by.
  change (to_csv sep (r :: rs)) with (render_row sep r ++ LF ++ to_csv sep rs).
  rewrite (ExportFacts.lstrip_nl_keep _ _ Hne Hnl).
  exact (rstrip_join_rendered sep r rs Hsep Hall).
Qed.

Lemma plain_batch_non_empty (b : list Row) : plain_batch b = true -> b <> [].
Proof. destruct b; [discriminate|discriminate]. Qed.

(** Joining what is written for each batch is joining the rendered rows of
    all batches. *)
Lemma join_stripped_batches (sep : ascii) (batches : list (list Row)) :
  Ascii.eqb sep nl = false ->
  forallb plain_batch batches = true ->
  join LF (List.map (stripped sep) batches)
  = join LF (List.map (render_row sep) (List.concat batches)).
Proof.
  intros Hs Hall.
  induction batches as [|b bs IH]; [reflexivity|].
  cbn [forallb] in Hall. apply andb_prop in Hall as [Hb Hbs].
  destruct bs as [|b' bs].
  - cbn [List.concat List.map join]. rewrite List.app_nil_r.
    exact (stripped_is_join sep b Hs Hb).
  - change (join LF (List.map (stripped sep) (b :: b' :: bs)))
      with (stripped sep b ++ LF ++ join LF (List.map (stripped sep) (b' :: bs))).
    change (List.concat (b :: b' :: bs)) with (b ++ List.concat (b' :: bs))%list.
    rewrite (IH Hbs), (stripped_is_join sep b Hs Hb), List.map_app.
    assert (Hb' : plain_batch b' = true)
      by (cbn [forallb] in Hbs; now apply andb_prop in Hbs).
    rewrite join_app; [reflexivity| |].
    + pose proof (plain_batch_non_empty b Hb). destruct b; [contradiction|discriminate].
    + pose proof (plain_batch_non_empty b' Hb'). cbn [List.concat].
      destruct b'; [contradiction|discriminate].
Qed.

(** X6: the text the exporter writes does not depend on how the rows are
    cut into batches.  For batches of at least one row whose values hold no
    line break it is the rendering of all rows in order, with one newline
    between two rows. *)
Theorem export_ignores_batching (file_type : string) (sep : ascii)
    (batches : list (list Row)) :
  export_sep file_type = Ok sep ->
  forallb plain_batch batches = true ->
  write_batches sep batches EmptyString true
  = join LF (List.map (render_row sep) (List.concat batches)).
Proof.
  intros Hs Hall. apply ExportFacts.export_sep_not_nl in Hs.
  rewrite ExportFacts.write_batches_join.
  exact (join_stripped_batches sep batches Hs Hall).
Qed.

Lemma export_ignores_batching_witness :
  write_batches "|"%char
    [[[Some "1"; Some "a"]; [Some "2"; None]]; [[Some "3"; Some "c"]]] EmptyString true
  = join LF (List.map (render_row "|"%char)
               [[Some "1"; Some "a"]; [Some "2"; None]; [Some "3"; Some "c"]]).
Proof.
  apply (export_ignores_batching "tbl" "|"%char
           [[[Some "1"; Some "a"]; [Some "2"; None]]; [[Some "3"; Some "c"]]]);
    reflexivity.
Defined.
End BatchingFacts.

Module ColumnarFacts.
Import PyStr ParquetConverter Layout.

Section Converter.
Variable pandas_json : DataFrame -> string.

Lemma write_rest_ok (it : list (result DataFrame)) (w w' : ParquetFile) (lg lg' : log) :
  write_rest pandas_json it w lg = (lg', w', Ok tt) ->
  exists chunks,
    it = List.map Ok chunks
    /\ pq_row_groups w' = (pq_row_groups w ++ List.map df_rows chunks)%list
    /\ pq_schema w' = pq_schema w
    /\ pq_closed w' = pq_closed w
    /\ lg' = (lg ++ List.map (fun c => (DEBUG, ChunkWritten (nrows c))) chunks)%list.
Proof.
  revert w lg. induction it as [|[chunk|e] it IH]; intros w lg; cbn [write_rest].
  - intros [= <- <-]. exists []. cbn [List.map]. now rewrite !List.app_nil_r.
  - unfold write_table. destruct (fields_eqb _ _); [|discriminate].
    intros H. destruct (IH _ _ H) as (chunks & -> & Hg & Hs & Hc & Hl).
    exists (chunk :: chunks). cbn [List.map pq_row_groups pq_schema pq_closed] in *.
    rewrite Hg, Hs, Hc, Hl, <- !List.app_assoc. repeat split.
  - discriminate.
Qed.

(** X7: when the conversion returns normally, the iterator raised nothing
    and the container on disk is closed, carries the schema of the renamed
    first chunk, and holds one row group per chunk: the rows of every
    chunk, in the order the iterator gave them. *)
Theorem convert_stores_every_chunk (chunk_iterator : list (result DataFrame))
    (output_file file_type : string) (lg : log) (d : disk) :
  convert_to_columnar_in_chunks pandas_json chunk_iterator output_file file_type
  = (lg, d, Ok tt) ->
  exists first_chunk rest,
    chunk_iterator = List.map Ok (first_chunk :: rest)
    /\ d = Some {| pq_schema := schema_from_pandas pandas_json (rename_columns first_chunk);
                   pq_row_groups := List.map df_rows (first_chunk :: rest);
                   pq_closed := true |}
    /\ lg = ((INFO, SchemaInitialised)
             :: List.map (fun c => (DEBUG, ChunkWritten (nrows c))) rest
             ++ [(INFO, ColumnarWritten output_file)])%list.
Proof.
  unfold convert_to_columnar_in_chunks, convert_body.
  destruct chunk_iterator as [|[first_chunk|e] it]; try discriminate.
  destruct (annotate_strings _ _); [|discriminate].
  unfold write_table at 1. destruct (fields_eqb _ _); [|discriminate].
  destruct (write_rest _ _ _ _) as [[lg' w'] [[]|e]] eqn:E; [|discriminate].
  intros [= <- <-].
  destruct (write_rest_ok _ _ _ _ _ E) as (chunks & -> & Hg & Hs & _ & ->).
  exists first_chunk, chunks. cbn [pq_row_groups pq_schema List.app] in Hg, Hs.
  unfold finalize. rewrite Hg, Hs. repeat split.
Qed.













End Converter.

Lemma convert_stores_every_chunk_witness :
  exists first_chunk rest,
    [Ok (Samples.chunk [[Some "1"; Some "2"]]); Ok (Samples.chunk [[Some "3"; Some "4"]])]
    = List.map Ok (first_chunk :: rest)
    /\ Some {| pq_schema := schema_from_pandas Samples.pandas_json
                              (Samples.chunk [[Some "1"; Some "2"]]);
               pq_row_groups := [[[Some "1"; Some "2"]]; [[Some "3"; Some "4"]]];
               pq_closed := true |}
       = Some {| pq_schema := schema_from_pandas Samples.pandas_json
                                (rename_columns first_chunk);
                 pq_row_groups := List.map df_rows (first_chunk :: rest);
                 pq_closed := true |}
    /\ [(INFO, SchemaInitialised); (DEBUG, ChunkWritten 1);
        (INFO, ColumnarWritten "compress/t.parquet")]
       = ((INFO, SchemaInitialised)
          :: List.map (fun c => (DEBUG, ChunkWritten (nrows c))) rest
          ++ [(INFO, ColumnarWritten "compress/t.parquet")])%list.
Proof.
  apply (convert_stores_every_chunk Samples.pandas_json
           [Ok (Samples.chunk [[Some "1"; Some "2"]]);
            Ok (Samples.chunk [[Some "3"; Some "4"]])]
           "compress/t.parquet" "tbl").
  reflexivity.
Defined.


End ColumnarFacts.

Module InferenceFacts.
Import PyStr DataReader Props Vocabulary.





Section Reader.
Variable set_order : list nat -> list nat.



End Reader.



(** *** The detected separator *)

Lemma count_seps_from (lines : list string) (a b k : nat) :
  List.fold_left
    (fun c line => List.fold_left (fun c s => counter_add c s (count s line)) possible_seps c)
    lines [("|"%char, a); (","%char, b); (tab, k)]
  = [("|"%char, a + total "|"%char lines); (","%char, b + total ","%char lines);
     (tab, k + total tab lines)].
Proof.
  revert a b k. induction lines as [|line lines IH]; intros a b k.
  - unfold total, list_sum. cbn [List.fold_left List.map List.fold_right].
    now rewrite !Nat.add_0_r.
  - cbn [List.fold_left].
    change (List.fold_left (fun c s => counter_add c s (count s line)) possible_seps
              [("|"%char, a); (","%char, b); (tab, k)])
      with [("|"%char, a + count "|"%char line); (","%char, b + count ","%char line);
            (tab, k + count tab line)].
    rewrite IH. unfold total, list_sum. cbn [List.map List.fold_right].
    now rewrite !Nat.add_assoc.
Qed.

Lemma count_seps_totals (line : string) (lines : list string) :
  count_seps (line :: lines)
  = [("|"%char, total "|"%char (line :: lines)); (","%char, total ","%char (line :: lines));
     (tab, total tab (line :: lines))].
Proof.
  unfold count_seps. cbn [List.fold_left].
  change (List.fold_left (fun c s => counter_add c s (count s line)) possible_seps [])
    with [("|"%char, count "|"%char line); (","%char, count ","%char line);
          (tab, count tab line)].
  rewrite count_seps_from. reflexivity.
Qed.

(** X13: the detected separator is the candidate that occurs most often in
    the valid sample lines taken together; of candidates that occur equally
    often the earlier one in the order pipe, comma, tab wins, so a sample
    without any candidate gives the pipe. *)
Theorem detected_separator_is_most_frequent (valid_lines : list string) :
  valid_lines <> [] ->
  let pipes := total "|"%char valid_lines in
  let commas := total ","%char valid_lines in
  let tabs := total tab valid_lines in
  most_common1 (count_seps valid_lines)
  = Some (if Nat.leb commas pipes && Nat.leb tabs pipes then "|"%char
          else if Nat.leb tabs commas then ","%char else tab).
Proof.
  intros Hne. destruct valid_lines as [|line lines]; [contradiction|].
  cbn zeta. rewrite count_seps_totals.
  generalize (total "|"%char (line :: lines)) as a.
  generalize (total ","%char (line :: lines)) as b.
  generalize (total tab (line :: lines)) as k. intros k b a.
  unfold most_common1. cbn [max_by snd].
  destruct (Nat.ltb_spec b k), (Nat.leb_spec k b); try lia; cbn [snd];
    destruct (Nat.leb_spec b a), (Nat.leb_spec k a); cbn [andb];
    match goal with
    | |- context [Nat.ltb ?x ?y] => destruct (Nat.ltb_spec x y)
    end; try lia; reflexivity.
Qed.

Lemma detected_separator_is_most_frequent_witness :
  most_common1 (count_seps ["a,b|c"; "d e"])
  = Some (if Nat.leb (total ","%char ["a,b|c"; "d e"]) (total "|"%char ["a,b|c"; "d e"])
             && Nat.leb (total tab ["a,b|c"; "d e"]) (total "|"%char ["a,b|c"; "d e"])
          then "|"%char
          else if Nat.leb (total tab ["a,b|c"; "d e"]) (total ","%char ["a,b|c"; "d e"])
               then ","%char else tab).
Proof.
  apply (detected_separator_is_most_frequent ["a,b|c"; "d e"]). discriminate.
Defined.

(** *** The column names *)

Lemma of_nat_inj (i j : nat) : of_nat i = of_nat j -> i = j.
Proof.
  unfold of_nat. intros H.
  assert (Hn : forall n, Nat.to_uint n <> Decimal.Nil).
  { intros n. rewrite <- (DecimalNat.Unsigned.of_to n) at 1.
    rewrite DecimalNat.Unsigned.to_of. apply DecimalFacts.unorm_nonnil. }
  apply (f_equal NilZero.uint_of_string) in H.
  rewrite !NilZero.usu in H by apply Hn.
  injection H as H. exact (DecimalNat.Unsigned.to_uint_inj _ _ H).
Qed.

(** X14: the synthetic column names [col_0], [col_1], ... are as many as the
    column count and pairwise distinct; the same holds for the names
    [rename_columns] gives the columns of a chunk. *)
Theorem column_names_are_distinct (num_columns : nat) (df : ParquetConverter.DataFrame) :
  List.length (column_names_of num_columns) = num_columns
  /\ List.NoDup (column_names_of num_columns)
  /\ ParquetConverter.df_columns (ParquetConverter.rename_columns df)
     = column_names_of (ParquetConverter.ncols df).
Proof.
  split; [|split].
  - unfold column_names_of. now rewrite List.length_map, List.length_seq.
  - unfold column_names_of. apply List.NoDup_map_NoDup_ForallPairs; [|apply List.seq_NoDup].
    intros i j _ _ H. apply MainFacts.append_cancel_l in H. exact (of_nat_inj _ _ H).
  - reflexivity.
Qed.

(** *** The size of the sample *)

(** X15: the sample never holds more than the 20 lines asked for, so at
    most 20 valid lines are counted, however long the file. *)
Theorem sample_is_bounded (n : nat) (f : string) :
  List.length (fst (preview n f)) <= n
  /\ List.length (valid_lines_of (fst (preview n f))) <= n.
Proof.
  assert (H : List.length (fst (preview n f)) <= n).
  { revert f. induction n as [|n IH]; intros f; [reflexivity|].
    cbn [preview]. destruct (readline f) as [cond f1].
    destruct (is_empty cond).
    - specialize (IH f1). lia.
    - destruct (readline f1) as [line f2]. specialize (IH f2).
      destruct (preview n f2) as [more f3]. cbn [fst List.length] in *. lia. }
  split; [exact H|]. unfold valid_lines_of. rewrite List.length_map.
  pose proof (List.filter_length_le
                (fun line => negb (is_empty (strip line)) && negb (startswith "#"%char line))
                (fst (preview n f))).
  lia.
Qed.

(** *** What a successful call returns *)

Lemma max_by_In {A} (key : A -> nat) (xs : list A) (x : A) :
  max_by key xs = Some x -> In x xs.
Proof.
  revert x. induction xs as [|y xs IH]; intros x; [discriminate|].
  cbn [max_by]. destruct (max_by key xs) as [z|].
  - destruct (Nat.ltb (key y) (key z)); intros [= <-];
      [right; now apply IH|now left].
  - intros [= <-]. now left.
Qed.

Lemma split_length_pos (c : ascii) (s : string) : 1 <= List.length (split c s).
Proof.
  induction s as [|d s IH]; [reflexivity|]. cbn [split].
  destruct (Ascii.eqb d c); [cbn [List.length]; lia|].
  destruct (split c s); cbn [List.length] in *; lia.
Qed.

Section Schema.
Variable set_order : list nat -> list nat.

(** X16: when the call returns a reader, its separator is one of the three
    candidates, and the column count is the field count of one of the valid
    sample lines under that separator, hence at least 1; the reader is
    configured for the same path and a chunk size of 50000 rows.  The order
    of iteration over a set is only taken to yield elements of the set. *)
Theorem successful_read_schema (fs : gmap string string)
    (file_path file_type text : string) (lg : log) (cfg : ReaderConfig) :
  (forall counts x, In x (set_order counts) -> In x counts) ->
  fs !! file_path = Some text ->
  read_file_data_in_chunks set_order fs file_path file_type = (lg, Ok cfg) ->
  let valid_lines :=
    valid_lines_of (fst (preview 20 (snd (readline (universal_newlines text))))) in
  In (rc_sep cfg) possible_seps
  /\ (exists line, In line valid_lines
                   /\ List.length (rc_names cfg) = List.length (split (rc_sep cfg) line))
  /\ 1 <= List.length (rc_names cfg)
  /\ rc_path cfg = file_path
  /\ rc_chunksize cfg = 50000%N.
Proof.
  intros Hset Hf. unfold read_file_data_in_chunks.
  destruct (type_hint file_type) as [[[s q] e]|]; [|discriminate].
  rewrite Hf. unfold infer.
  destruct (readline (universal_newlines text)) as [l0 f1]. cbn [snd].
  destruct (preview 20 f1) as [pl f2]. cbn [fst].
  destruct pl as [|p pl]; [discriminate|].
  destruct (valid_lines_of (p :: pl)) as [|v vl] eqn:Ev; [discriminate|].
  rewrite count_seps_totals.
  destruct (most_common1 _) as [d|] eqn:Ed; [|discriminate].
  destruct (Ascii.eqb d (default_sep file_path)); cbn [negb]; [discriminate|].
  destruct (max_by _ _) as [k|] eqn:Ek; [|discriminate].
  intros H. injection H as _ <-. cbn [rc_sep rc_names rc_path rc_chunksize].
  apply max_by_In, Hset in Ek. unfold column_counts_of in Ek.
  apply in_map_iff in Ek as [line [<- Hline]].
  assert (Hlen : List.length (column_names_of (List.length (split d line)))
                 = List.length (split d line))
    by (unfold column_names_of; now rewrite List.length_map, List.length_seq).
  split; [|split; [|split; [|split; reflexivity]]].
  - unfold most_common1 in Ed.
    destruct (max_by snd _) as [[d' n]|] eqn:Em; [|discriminate].
    injection Ed as <-. apply max_by_In in Em.
    unfold possible_seps. cbn [In] in *.
    destruct Em as [[= <- _]|[[= <- _]|[[= <- _]|[]]]]; auto.
  - exists line. split; [exact Hline|exact Hlen].
  - rewrite Hlen. apply split_length_pos.
Qed.

End Schema.

Lemma successful_read_schema_witness :
  let cfg := {| rc_path := "data/t.tbl"; rc_sep := "|"%char;
                rc_names := ["col_0"; "col_1"; "col_2"];
                rc_quotechar := dquote; rc_escapechar := "\"%char;
                rc_chunksize := 50000%N |} in
  let valid_lines :=
    valid_lines_of
      (fst (preview 20 (snd (readline (universal_newlines Samples.tbl_text))))) in
  In (rc_sep cfg) possible_seps
  /\ (exists line, In line valid_lines
                   /\ List.length (rc_names cfg) = List.length (split (rc_sep cfg) line))
  /\ 1 <= List.length (rc_names cfg)
  /\ rc_path cfg = "data/t.tbl"
  /\ rc_chunksize cfg = 50000%N.
Proof.
  apply (successful_read_schema Samples.set_order (Main.w_fs Samples.tbl_world)
           "data/t.tbl" "tbl" Samples.tbl_text
           [(INFO, SeparatorSwitched "|"%char); (INFO, StableColumns 3)]).
  - intros counts x. unfold Samples.set_order. apply nodup_In.
  - reflexivity.
  - reflexivity.
Defined.
End InferenceFacts.

Module NamingFacts.
Import PyStr OsPath Vocabulary Main.

Lemma contains_app (p : ascii -> bool) (a b : string) :
  ParquetConverter.contains p (a ++ b)
  = ParquetConverter.contains p a || ParquetConverter.contains p b.
Proof.
  induction a as [|c a IH]; [reflexivity|].
  change (String c a ++ b) with (String c (a ++ b)).
  cbn [ParquetConverter.contains]. now rewrite IH, orb_assoc.
Qed.

Lemma no_dot_no_slash_spec (s : string) :
  no_dot_no_slash s = true ->
  ParquetConverter.contains (fun c => Ascii.eqb c "."%char) s = false
  /\ ParquetConverter.contains (fun c => Ascii.eqb c "/"%char) s = false.
Proof.
  unfold no_dot_no_slash. induction s as [|c s IH]; [now split|].
  cbn [ParquetConverter.contains]. rewrite negb_orb. intros H.
  apply andb_prop in H as [Hc Hs]. rewrite negb_orb in Hc.
  apply andb_prop in Hc as [Hd Hsl]. destruct (IH Hs) as [H1 H2].
  rewrite H1, H2. destruct (Ascii.eqb c "."%char), (Ascii.eqb c "/"%char);
    try discriminate. now split.
Qed.

Lemma rfind_absent (c : ascii) (s : string) :
  ParquetConverter.contains (fun d => Ascii.eqb d c) s = false -> rfind c s = None.
Proof.
  induction s as [|d s IH]; [reflexivity|]. cbn [ParquetConverter.contains rfind].
  intros H. apply orb_false_elim in H as [Hd Hs]. now rewrite (IH Hs), Hd.
Qed.

Lemma rfind_app (c : ascii) (a b : string) :
  rfind c (a ++ b)
  = match rfind c b with
    | Some i => Some (String.length a + i)
    | None => rfind c a
    end.
Proof.
  induction a as [|d a IH].
  { change (EmptyString ++ b) with b. now destruct (rfind c b). }
  change (String d a ++ b) with (String d (a ++ b)). cbn [rfind String.length].
  rewrite IH. destruct (rfind c b); [reflexivity|]. reflexivity.
Qed.

Lemma substring_prefix (a b : string) : substring 0 (String.length a) (a ++ b) = a.
Proof.
  induction a as [|c a IH].
  { change (EmptyString ++ b) with b. now destruct b. }
  change (String c a ++ b) with (String c (a ++ b)). cbn [String.length substring].
  now rewrite IH.
Qed.

Lemma substring_whole (b : string) : substring 0 (String.length b) b = b.
Proof. induction b as [|c b IH]; [reflexivity|]. cbn [String.length substring]. now rewrite IH. Qed.

Lemma substring_suffix (a b : string) :
  substring (String.length a) (String.length b) (a ++ b) = b.
Proof.
  induction a as [|c a IH]; [apply substring_whole|].
  change (String c a ++ b) with (String c (a ++ b)). cbn [String.length substring].
  exact IH.
Qed.

Lemma has_non_dot_simple (s : string) : simple_name s = true -> has_non_dot s = true.
Proof.
  unfold simple_name, non_empty. destruct s as [|c s]; [discriminate|].
  cbn [is_empty negb andb]. intros H. apply no_dot_no_slash_spec in H as [Hd _].
  cbn [ParquetConverter.contains] in Hd. apply orb_false_elim in Hd as [Hc _].
  cbn [has_non_dot]. now rewrite Hc.
Qed.

(** [os.path.splitext] on a simple name with an extension. *)
Lemma splitext_simple (base ext : string) :
  simple_name base = true -> no_dot_no_slash ext = true ->
  splitext (base ++ "." ++ ext) = (base, "." ++ ext).
Proof.
  intros Hb He. pose proof (has_non_dot_simple _ Hb) as Hnd.
  unfold simple_name in Hb. apply andb_prop in Hb as [_ Hb].
  apply no_dot_no_slash_spec in Hb as [Hbd Hbs].
  apply no_dot_no_slash_spec in He as [Hed Hes].
  unfold splitext.
  assert (Hs : rfind "/"%char (base ++ "." ++ ext) = None).
  { apply rfind_absent. rewrite contains_app, Hbs.
    change ("." ++ ext) with (String "."%char ext).
    cbn [ParquetConverter.contains]. now rewrite Hes. }
  assert (Hd : rfind "."%char (base ++ "." ++ ext) = Some (String.length base + 0)).
  { rewrite rfind_app. change ("." ++ ext) with (String "."%char ext).
    cbn [rfind]. now rewrite (rfind_absent _ _ Hed). }
  rewrite Hs, Hd, Nat.add_0_r, Nat.sub_0_r. cbn [Nat.leb].
  rewrite substring_prefix, Hnd. cbn [andb].
  rewrite StreamFacts.length_append.
  replace (String.length base + String.length ("." ++ ext) - String.length base)
    with (String.length ("." ++ ext)) by lia.
  now rewrite substring_suffix.
Qed.

Lemma splitext_no_dot (base : string) :
  simple_name base = true -> splitext base = (base, EmptyString).
Proof.
  unfold simple_name. intros H. apply andb_prop in H as [_ H].
  apply no_dot_no_slash_spec in H as [Hd _]. unfold splitext.
  now rewrite (rfind_absent _ _ Hd).
Qed.

Lemma split_absent (c : ascii) (s : string) :
  ParquetConverter.contains (fun d => Ascii.eqb d c) s = false -> split c s = [s].
Proof.
  induction s as [|d s IH]; [reflexivity|]. cbn [ParquetConverter.contains split].
  intros H. apply orb_false_elim in H as [Hd Hs]. now rewrite Hd, (IH Hs).
Qed.

Lemma split_at_sep (c : ascii) (a b : string) :
  ParquetConverter.contains (fun d => Ascii.eqb d c) a = false ->
  split c (a ++ String c b) = a :: split c b.
Proof.
  induction a as [|d a IH].
  - intros _. change (EmptyString ++ String c b) with (String c b).
    cbn [split]. now rewrite Ascii.eqb_refl.
  - cbn [ParquetConverter.contains]. intros H. apply orb_false_elim in H as [Hd Ha].
    change (String d a ++ String c b) with (String d (a ++ String c b)).
    cbn [split]. now rewrite Hd, (IH Ha).
Qed.

Lemma join_compress_dir (name : string) :
  startswith "/"%char name = false -> join compress_dir name = "compress/" ++ name.
Proof. unfold join. now intros ->. Qed.

Lemma startswith_simple (base rest : string) :
  simple_name base = true -> startswith "/"%char (base ++ rest) = false.
Proof.
  unfold simple_name, non_empty. destruct base as [|c base]; [discriminate|].
  cbn [is_empty negb andb]. intros H. apply no_dot_no_slash_spec in H as [_ Hs].
  cbn [ParquetConverter.contains] in Hs. apply orb_false_elim in Hs as [Hc _].
  exact Hc.
Qed.

(** X17: for a file named [<base>.<ext>] (a base name that is not empty,
    neither part holding a dot or a slash) the file type is [<ext>], the
    intermediate container is [compress/<base>.parquet] and the archive is
    [compress/<base>.zstd]; from the archive name the reverse direction
    gets [<base>] back and uses the same container path. *)
Theorem pipeline_names (base ext : string) :
  simple_name base = true -> no_dot_no_slash ext = true ->
  let file_name := base ++ "." ++ ext in
  file_type_of file_name = ext
  /\ base_name_of file_name = base
  /\ temp_parquet_of file_name = "compress/" ++ base ++ ".parquet"
  /\ compressed_file_of file_name = "compress/" ++ base ++ ".zstd"
  /\ fst (splitext (fst (splitext (base ++ ".zstd")))) = base
  /\ join compress_dir (fst (splitext (fst (splitext (base ++ ".zstd")))) ++ ".parquet")
     = temp_parquet_of file_name.
Proof.
  intros Hb He. cbn zeta.
  assert (Hbase : base_name_of (base ++ "." ++ ext) = base)
    by (unfold base_name_of; now rewrite (splitext_simple _ _ Hb He)).
  assert (Hz : fst (splitext (fst (splitext (base ++ ".zstd")))) = base).
  { change (base ++ ".zstd") with (base ++ "." ++ "zstd").
    rewrite (splitext_simple base "zstd" Hb eq_refl). cbn [fst].
    now rewrite (splitext_no_dot _ Hb). }
  split; [|split; [exact Hbase|split; [|split; [|split; [exact Hz|]]]]].
  - unfold file_type_of. pose proof Hb as Hb'. unfold simple_name in Hb'.
    apply andb_prop in Hb' as [_ Hb']. apply no_dot_no_slash_spec in Hb' as [Hbd _].
    apply no_dot_no_slash_spec in He as [Hed _].
    change ("." ++ ext) with (String "."%char ext).
    now rewrite (split_at_sep _ _ _ Hbd), (split_absent _ _ Hed).
  - unfold temp_parquet_of. rewrite Hbase.
    apply join_compress_dir, startswith_simple, Hb.
  - unfold compressed_file_of. rewrite Hbase.
    apply join_compress_dir, startswith_simple, Hb.
  - rewrite Hz. unfold temp_parquet_of. now rewrite Hbase.
Qed.

Lemma pipeline_names_witness :
  let file_name := "customer" ++ "." ++ "tbl" in
  file_type_of file_name = "tbl"
  /\ base_name_of file_name = "customer"
  /\ temp_parquet_of file_name = "compress/" ++ "customer" ++ ".parquet"
  /\ compressed_file_of file_name = "compress/" ++ "customer" ++ ".zstd"
  /\ fst (splitext (fst (splitext ("customer" ++ ".zstd")))) = "customer"
  /\ join compress_dir (fst (splitext (fst (splitext ("customer" ++ ".zstd")))) ++ ".parquet")
     = temp_parquet_of file_name.
Proof. apply (pipeline_names "customer" "tbl"); reflexivity. Defined.
End NamingFacts.

Module BatchFacts.
Import PyStr OsPath ParquetConverter CompressionStats Main.

Section Pipeline.
Variable set_order : list nat -> list nat.
Variable pandas_json : DataFrame -> string.
Variable pandas_chunks : DataReader.ReaderConfig -> string -> list (result DataFrame).
Variable pq_bytes : ParquetFile -> string.
Variable pq_open : string -> option ParquetFile.
Variable iter_batches : N -> ParquetFile -> list (list Row).
Variable zstd_compress : list string -> string.
Variable zstd_reads : string -> N -> list (result string).

(** What one call of [compress_with_zstd] of [main.py] does to the state:
    the log grows, the counter grows by at most one, and only the output
    file changes. *)
Lemma compress_with_zstd_effect (w w' : World) (input_file output_file : string)
    (r : result unit) :
  Main.compress_with_zstd zstd_compress w input_file output_file = (w', r) ->
  (exists l, w_log w' = (w_log w ++ l)%list)
  /\ file_count (w_stats w) <= file_count (w_stats w') <= file_count (w_stats w) + 1
  /\ (forall path, path <> output_file -> w_fs w' !! path = w_fs w !! path).
Proof.
  unfold Main.compress_with_zstd, ZstdCompressor.compress_stream.
  destruct (w_fs w !! input_file).
  - cbn zeta. destruct (Nat.eqb _ 0); intros [= <- _];
      cbn [with_log with_fs with_stats w_log w_stats w_fs update_compression_stats
           file_count];
      (split; [eexists; reflexivity|]); (split; [lia|]);
      intros path Hp; now rewrite !lookup_insert_ne by congruence.
  - intros [= <- _]. cbn [with_log w_log w_stats w_fs].
    split; [eexists; reflexivity|]. split; [lia|reflexivity].
Qed.

Lemma remove_effect (w w' : World) (path : string) (r : result unit) :
  remove w path = (w', r) ->
  w_log w' = w_log w /\ w_stats w' = w_stats w
  /\ (forall p, p <> path -> w_fs w' !! p = w_fs w !! p).
Proof.
  unfold remove. destruct (w_fs w !! path); intros [= <- _].
  - cbn [with_fs w_log w_stats w_fs]. repeat split.
    intros p Hp. now rewrite lookup_delete_ne by congruence.
  - repeat split.
Qed.

(** One round of the loop of [compressmain]. *)
Lemma compress_file_effect (w : World) (file_name : string) :
  let w' := compress_file set_order pandas_json pandas_chunks pq_bytes zstd_compress
              w file_name in
  (exists l, w_log w' = (w_log w ++ l)%list
             /\ (is_data_file file_name = true -> In (INFO, ProcessingFile file_name) l))
  /\ file_count (w_stats w) <= file_count (w_stats w')
     <= file_count (w_stats w) + (if is_data_file file_name then 1 else 0)
  /\ (forall path, path <> temp_parquet_of file_name ->
                   path <> compressed_file_of file_name ->
                   w_fs w' !! path = w_fs w !! path).
Proof.
  cbn zeta. unfold compress_file. destruct (is_data_file file_name).
  2:{ split; [exists []; split; [now rewrite List.app_nil_r|discriminate]|].
      split; [lia|reflexivity]. }
  unfold compress_steps.
  destruct (DataReader.read_file_data_in_chunks _ _ _ _) as [lg1 [cfg|e]].
  2:{ cbn [with_log w_log w_stats w_fs]. split; [|split; [lia|reflexivity]].
      eexists. rewrite <- !List.app_assoc. split; [reflexivity|].
      intros _. now left. }
  destruct (Main.convert_to_columnar_in_chunks _ _ _ _) as [[lg2 d] r2].
  match goal with
  | |- context [Main.compress_with_zstd zstd_compress ?w1 ?i ?o] =>
      destruct (Main.compress_with_zstd zstd_compress w1 i o) as [w2 r3] eqn:Ec;
      pose proof (compress_with_zstd_effect _ _ _ _ _ Ec) as ([l3 Hl3] & Hc3 & Hf3)
  end.
  cbn [with_log with_fs w_log w_stats w_fs] in Hl3, Hc3, Hf3.
  assert (Hstore : forall path, path <> temp_parquet_of file_name ->
                     store pq_bytes (w_fs w) (temp_parquet_of file_name) d !! path
                     = w_fs w !! path).
  { intros path Hp. unfold store. destruct d; [|reflexivity].
    now rewrite lookup_insert_ne by congruence. }
  destruct r3 as [[]|e3].
  - destruct (remove w2 (temp_parquet_of file_name)) as [w3 r4] eqn:Er.
    destruct (remove_effect _ _ _ _ Er) as (Hl4 & Hs4 & Hf4).
    destruct r4 as [[]|e4]; cbn [with_log w_log w_stats w_fs];
      rewrite ?Hl4, ?Hs4, Hl3;
      (split; [eexists; rewrite <- !List.app_assoc; split; [reflexivity|];
               intros _; now left|]);
      (split; [lia|]); intros path Hp1 Hp2;
      rewrite (Hf4 path Hp1), (Hf3 path Hp2); exact (Hstore path Hp1).
  - cbn [with_log w_log w_stats w_fs]. rewrite Hl3.
    split; [eexists; rewrite <- !List.app_assoc; split; [reflexivity|];
            intros _; now left|].
    split; [lia|]. intros path Hp1 Hp2.
    rewrite (Hf3 path Hp2). exact (Hstore path Hp1).
Qed.

(** X18: no file's failure stops the batch.  Whatever happens to the files
    before it, every data file of the listing is taken up (its name is
    logged as being processed); the log of the run only grows. *)
Theorem compressmain_processes_every_file (listing : list string) (w : World) :
  let w' := compressmain set_order pandas_json pandas_chunks pq_bytes zstd_compress
              listing w in
  exists l, w_log w' = (w_log w ++ l)%list
            /\ forall file_name, In file_name listing -> is_data_file file_name = true ->
                                 In (INFO, ProcessingFile file_name) l.
Proof.
  cbn zeta. unfold compressmain. revert w.
  induction listing as [|f listing IH]; intros w.
  - exists []. split; [now rewrite List.app_nil_r|]. intros ? [].
  - cbn [List.fold_left].
    destruct (compress_file_effect w f) as ([l1 [Hl1 Hin1]] & _ & _).
    cbn zeta in Hl1.
    destruct (IH (compress_file set_order pandas_json pandas_chunks pq_bytes
                    zstd_compress w f)) as [l2 [Hl2 Hin2]].
    exists (l1 ++ l2)%list. split; [now rewrite Hl2, Hl1, List.app_assoc|].
    intros g [<-|Hg] Hd; apply in_or_app; [left; now apply Hin1|right; now apply Hin2].
Qed.

(** X19: the file counter of the statistics never goes down and grows by
    at most one for each data file of the listing; names that are not data
    files are not counted. *)
Theorem compressmain_counts_each_file_once (listing : list string) (w : World) :
  let w' := compressmain set_order pandas_json pandas_chunks pq_bytes zstd_compress
              listing w in
  file_count (w_stats w) <= file_count (w_stats w')
  <= file_count (w_stats w) + List.length (List.filter is_data_file listing).
Proof.
  cbn zeta. unfold compressmain. revert w.
  induction listing as [|f listing IH]; intros w; [cbn; lia|].
  cbn [List.fold_left List.filter].
  destruct (compress_file_effect w f) as (_ & Hc & _). cbn zeta in Hc.
  specialize (IH (compress_file set_order pandas_json pandas_chunks pq_bytes
                    zstd_compress w f)).
  destruct (is_data_file f); cbn [List.length]; lia.
Qed.


End Pipeline.

End BatchFacts.

Module ReverseFacts.
Import PyStr OsPath ParquetConverter CompressionStats Main.

Section Pipeline.
Variable pq_open : string -> option ParquetFile.
Variable iter_batches : N -> ParquetFile -> list (list Row).
Variable zstd_reads : string -> N -> list (result string).

(** X21: the reverse direction for one archive, when nothing fails.  The
    archive is decompressed into the container file, the extension is read
    from the container's metadata, the text is written under the
    decompression directory with that extension and with its separator,
    the container file is removed, and the statistics are not touched. *)
Theorem decompress_file_succeeds (w : World)
    (compressed_file_name archive bytes ext : string) (pf : ParquetFile) (sep : ascii) :
  let compressed_file_path := join compress_dir compressed_file_name in
  let name := fst (splitext (fst (splitext compressed_file_name))) in
  let decompressed_parquet := join compress_dir (name ++ ".parquet") in
  let output_path := join decompress_dir (name ++ "." ++ ext) in
  endswith ".zstd" compressed_file_name = true ->
  w_fs w !! compressed_file_path = Some archive ->
  compressed_file_path <> decompressed_parquet ->
  ZstdCompressor.drain (zstd_reads archive (4096 * 1024)%N) EmptyString = (bytes, Ok tt) ->
  pq_open bytes = Some pf ->
  read_original_extension pf = Ok ext ->
  export_sep ext = Ok sep ->
  decompress_file pq_open iter_batches zstd_reads w compressed_file_name
  = {| w_fs := delete decompressed_parquet
                 (<[output_path := write_batches sep (iter_batches 50000%N pf)
                                     EmptyString true]>
                    (<[decompressed_parquet := bytes]>
                       (<[decompressed_parquet := EmptyString]> (w_fs w))));
       w_stats := w_stats w;
       w_log := (w_log w ++
                 [(INFO, DecompressDone compressed_file_path decompressed_parquet);
                  (INFO, ExportDone output_path);
                  (INFO, FileDecompressed output_path)])%list |}.
Proof.
  cbn zeta. intros Hz Hin Hne Hd Ho He Hs.
  unfold decompress_file. rewrite Hz. unfold decompress_steps.
  unfold ZstdCompressor.decompress_with_zstd. rewrite Hin.
  rewrite lookup_insert_ne by congruence. rewrite Hin. cbn [from_option id].
  rewrite Hd. cbn [with_log with_fs w_fs w_log w_stats].
  unfold open_container. rewrite lookup_insert_eq, Ho, He.
  unfold convert_parquet_to_text_in_chunks. rewrite Hs.
  cbn [with_log with_fs w_fs w_log w_stats].
  unfold remove. cbn [with_log with_fs w_fs w_log w_stats].
  match goal with
  | |- context [<[?o := ?t]> ?m !! ?p] =>
      assert (Hl : is_Some (<[o := t]> m !! p))
  end.
  { match goal with
    | |- is_Some (<[?o := _]> _ !! ?p) => destruct (decide (o = p)) as [->|Hop]
    end.
    - rewrite lookup_insert_eq. eauto.
    - rewrite lookup_insert_ne by exact Hop. rewrite lookup_insert_eq. eauto. }
  destruct Hl as [x ->]. unfold with_log, with_fs. cbn [w_fs w_log w_stats].
  rewrite <- !List.app_assoc. reflexivity.
Qed.

(** X22: an extension in the container's metadata that is none of [tbl],
    [csv], [txt] stops the reverse direction with [ValueError]: the failure
    is logged with the archive's name, no text file is written, and the
    decompressed container stays on disk. *)
Theorem decompress_file_unknown_extension (w : World)
    (compressed_file_name archive bytes ext : string) (pf : ParquetFile) (e : exn) :
  let compressed_file_path := join compress_dir compressed_file_name in
  let name := fst (splitext (fst (splitext compressed_file_name))) in
  let decompressed_parquet := join compress_dir (name ++ ".parquet") in
  endswith ".zstd" compressed_file_name = true ->
  w_fs w !! compressed_file_path = Some archive ->
  compressed_file_path <> decompressed_parquet ->
  ZstdCompressor.drain (zstd_reads archive (4096 * 1024)%N) EmptyString = (bytes, Ok tt) ->
  pq_open bytes = Some pf ->
  read_original_extension pf = Ok ext ->
  export_sep ext = Raise e ->
  e = ValueError ("unsupported file type: " ++ ext)
  /\ decompress_file pq_open iter_batches zstd_reads w compressed_file_name
     = {| w_fs := <[decompressed_parquet := bytes]>
                    (<[decompressed_parquet := EmptyString]> (w_fs w));
          w_stats := w_stats w;
          w_log := (w_log w ++
                    [(INFO, DecompressDone compressed_file_path decompressed_parquet);
                     (ERROR, FileDecompressFailed compressed_file_name e)])%list |}.
Proof.
  cbn zeta. intros Hz Hin Hne Hd Ho He Hs. split.
  - unfold export_sep in Hs.
    destruct (String.eqb ext "tbl"); [discriminate|].
    destruct (String.eqb ext "csv"); [discriminate|].
    destruct (String.eqb ext "txt"); [discriminate|]. now injection Hs as <-.
  - unfold decompress_file. rewrite Hz. unfold decompress_steps.
    unfold ZstdCompressor.decompress_with_zstd. rewrite Hin.
    rewrite lookup_insert_ne by congruence. rewrite Hin. cbn [from_option id].
    rewrite Hd. cbn [with_log with_fs w_fs w_log w_stats].
    unfold open_container. rewrite lookup_insert_eq, Ho, He.
    unfold convert_parquet_to_text_in_chunks. rewrite Hs.
    unfold with_log, with_fs. cbn [w_fs w_log w_stats].
    rewrite <- !List.app_assoc. reflexivity.
Qed.

End Pipeline.

Lemma decompress_file_succeeds_witness :
  decompress_file MoreSamples.open_stored Samples.iter_batches MoreSamples.echo_reads
    MoreSamples.archive_world "t.zstd"
  = {| w_fs := delete "compress/t.parquet"
                 (<[ "decompress/t.tbl" :=
                       write_batches "|"%char
                         (Samples.iter_batches 50000%N MoreSamples.stored_container)
                         EmptyString true ]>
                    (<[ "compress/t.parquet" := "PAR1" ]>
                       (<[ "compress/t.parquet" := EmptyString ]>
                          (w_fs MoreSamples.archive_world))));
       w_stats := w_stats MoreSamples.archive_world;
       w_log := [(INFO, DecompressDone "compress/t.zstd" "compress/t.parquet");
                 (INFO, ExportDone "decompress/t.tbl");
                 (INFO, FileDecompressed "decompress/t.tbl")] |}.
Proof.
  apply (decompress_file_succeeds MoreSamples.open_stored Samples.iter_batches
           MoreSamples.echo_reads MoreSamples.archive_world "t.zstd"
           "(zstd)PAR1" "PAR1" "tbl" MoreSamples.stored_container "|"%char);
    try reflexivity.
  discriminate.
Defined.

Lemma decompress_file_unknown_extension_witness :
  let e := ValueError ("unsupported file type: " ++ "dat") in
  e = ValueError ("unsupported file type: " ++ "dat")
  /\ decompress_file MoreSamples.open_foreign Samples.iter_batches MoreSamples.echo_reads
       MoreSamples.archive_world "t.zstd"
     = {| w_fs := <[ "compress/t.parquet" := "PAR1" ]>
                    (<[ "compress/t.parquet" := EmptyString ]>
                       (w_fs MoreSamples.archive_world));
          w_stats := w_stats MoreSamples.archive_world;
          w_log := [(INFO, DecompressDone "compress/t.zstd" "compress/t.parquet");
                    (ERROR, FileDecompressFailed "t.zstd" e)] |}.
Proof.
  apply (decompress_file_unknown_extension MoreSamples.open_foreign Samples.iter_batches
           MoreSamples.echo_reads MoreSamples.archive_world "t.zstd"
           "(zstd)PAR1" "PAR1" "dat" MoreSamples.foreign_container);
    try reflexivity.
  discriminate.
Defined.
End ReverseFacts.

Module SummaryFacts.
Import CompressionStats Summary.

Lemma record_all_totals (sizes : list (nat * nat)) (stats : Stats) :
  record_all sizes stats
  = {| total_original := total_original stats + list_sum (List.map fst sizes);
       total_compressed := total_compressed stats + list_sum (List.map snd sizes);
       file_count := file_count stats + List.length sizes |}.
Proof.
  unfold record_all. revert stats.
  induction sizes as [|[o c] sizes IH]; intros stats.
  - unfold list_sum. cbn [List.fold_left List.map List.fold_right List.length].
    rewrite !Nat.add_0_r. now destruct stats.
  - cbn [List.fold_left]. rewrite IH. unfold update_compression_stats, list_sum.
    cbn [total_original total_compressed file_count List.map List.fold_right
         List.length fst snd].
    f_equal; lia.
Qed.

(** X23: the statistics add up, and the summary fails on them only when
    every recorded file was empty.  After one update per file, starting
    from the initial statistics, the counter is the number of files and the
    totals are the sums of the sizes; [print_summary_stats] then reports
    nothing for no file, raises [ZeroDivisionError] when the original sizes
    sum to zero, and prints the three figures otherwise. *)
Theorem summary_of_recorded_sizes (sizes : list (nat * nat)) :
  let stats := record_all sizes init_compression_stats in
  let original := list_sum (List.map fst sizes) in
  let compressed := list_sum (List.map snd sizes) in
  file_count stats = List.length sizes
  /\ total_original stats = original
  /\ total_compressed stats = compressed
  /\ print_summary_stats stats
     = match sizes with
       | [] => Ok NothingToReport
       | _ :: _ => if Nat.eqb original 0 then Raise ZeroDivisionError
                   else Ok (Printed (List.length sizes) original compressed)
       end.
Proof.
  cbn zeta. rewrite record_all_totals.
  cbn [init_compression_stats total_original total_compressed file_count Nat.add].
  repeat split. unfold print_summary_stats.
  cbn [total_original total_compressed file_count].
  destruct sizes as [|p sizes]; reflexivity.
Qed.
End SummaryFacts.
